(** * RedisTest: the read-through cache of the student CRUD service

    A shallow embedding of [src/config/redis.js]: the in-memory fallback
    client returned by [createRedisClient] when Redis cannot be reached, the
    [cacheData] middleware, the [clearCache] helper and the Express routes
    that use them.

    Conventions of the embedding.
    - JavaScript strings are [string]s whose characters are code units that
      fit in eight bits.
    - [mockStorage] is a JavaScript [Map]: an association list in insertion
      order, because [keys()] enumerates in that order.
    - The values the program stores are strings (the output of
      [JSON.stringify]), so the store holds strings; [null] is [None].
    - A promise that rejects is [Rejected]; one that resolves is [Ok].
    - [setTimeout] is a list of pending timers over a clock in milliseconds;
      [run_timers] is the event loop running every callback that is due.
    - The runtime and the collaborators that are not part of the repository
      ([JSON], the regular-expression engine outside the modelled fragment,
      the Mongoose model [Student]) are parameters of the development. *)

From Stdlib Require Import String Ascii List ZArith Bool Lia.
Import ListNotations.
Local Open Scope string_scope.
Local Open Scope Z_scope.

Set Implicit Arguments.

(* ------------------------------------------------------------------ *)
(** ** JavaScript [Map] with string keys and string values *)

Module JSMap.

Definition t := list (string * string).

Definition empty : t := [].

Definition is_key (k : string) (p : string * string) : bool :=
  String.eqb (fst p) k.

Definition has (k : string) (m : t) : bool := existsb (is_key k) m.

(** [m.get(k)]: [None] is [undefined]. *)
Fixpoint get (k : string) (m : t) : option string :=
  match m with
  | [] => None
  | (k', v) :: m' => if String.eqb k' k then Some v else get k m'
  end.

(** [m.set(k, v)]: an existing key keeps its position, a new key is
    appended. *)
Fixpoint set (k v : string) (m : t) : t :=
  match m with
  | [] => [(k, v)]
  | (k', v') :: m' =>
      if String.eqb k' k then (k, v) :: m' else (k', v') :: set k v m'
  end.

(** [m.delete(k)]: whether the key was there, and the map without it. *)
Definition delete (k : string) (m : t) : bool * t :=
  (has k m, filter (fun p => negb (is_key k p)) m).

(** [[...m.keys()]]. *)
Definition keys (m : t) : list string := map fst m.

End JSMap.

(* ------------------------------------------------------------------ *)
(** ** The fragment of regular expressions the engine is modelled on

    [keys] builds [new RegExp(`^${pattern.replace('*', '.*')}$`)] and calls
    [test].  The modelled fragment is: a leading [^], then ordinary
    characters and [.], each optionally followed by one of the quantifiers
    [*], [+], [?] (and then optionally by the lazy marker [?]), then a final
    [$].  With both anchors and no alternation, [test] is a match of the whole
    string, and greedy and lazy quantifiers accept the same strings.  Any
    other source text is left to the host engine, a parameter. *)

Module JSRegExp.

Inductive atom : Type :=
| Lit (c : ascii)
| Dot.

Inductive quant : Type := One | Star | Plus | Opt.

Definition item : Type := (atom * quant)%type.

Inductive parsed : Type :=
| Pattern (r : list item)
| NothingToRepeat
| OutsideFragment.

(** The syntax characters of the pattern grammar. *)
Definition syntax_char (c : ascii) : bool :=
  existsb (Ascii.eqb c)
    ["^"; "$"; "\"; "."; "*"; "+"; "?"; "("; ")"; "["; "]"; "{"; "}"; "|"]%char.

(** What the parser has just read, which decides what a quantifier
    character means. *)
Inductive last : Type := NoAtom | AnAtom | Quantified | Lazy.

Definition requantify (q : quant) (acc : list item) : list item :=
  match acc with
  | (a, _) :: acc' => (a, q) :: acc'
  | [] => []
  end.

(** The body after [^]; [acc] holds the items read so far, last first. *)
Fixpoint parse_body (l : last) (acc : list item) (s : string) : parsed :=
  match s with
  | EmptyString => OutsideFragment
  | String c s' =>
      if Ascii.eqb c "$" then
        match s' with
        | EmptyString => Pattern (rev acc)
        | _ => OutsideFragment
        end
      else if Ascii.eqb c "." then parse_body AnAtom ((Dot, One) :: acc) s'
      else if Ascii.eqb c "*" then
        match l with
        | AnAtom => parse_body Quantified (requantify Star acc) s'
        | _ => NothingToRepeat
        end
      else if Ascii.eqb c "+" then
        match l with
        | AnAtom => parse_body Quantified (requantify Plus acc) s'
        | _ => NothingToRepeat
        end
      else if Ascii.eqb c "?" then
        match l with
        | AnAtom => parse_body Quantified (requantify Opt acc) s'
        | Quantified => parse_body Lazy acc s'
        | _ => NothingToRepeat
        end
      else if syntax_char c then OutsideFragment
      else parse_body AnAtom ((Lit c, One) :: acc) s'
  end.

Definition parse (source : string) : parsed :=
  match source with
  | String "^" body => parse_body NoAtom [] body
  | _ => OutsideFragment
  end.

(** [.] matches any character but a line terminator. *)
Definition line_terminator (c : ascii) : bool :=
  Ascii.eqb c "010" || Ascii.eqb c "013".

Definition atom_matches (a : atom) (c : ascii) : bool :=
  match a with
  | Lit c' => Ascii.eqb c' c
  | Dot => negb (line_terminator c)
  end.

(** Does the whole of [s] match the sequence [r]? *)
Fixpoint matches (r : list item) : string -> bool :=
  match r with
  | [] => fun s => match s with EmptyString => true | _ => false end
  | (a, q) :: r' =>
      let rest := matches r' in
      let star :=
        fix star (s : string) : bool :=
          rest s
          || match s with
             | String c s' => atom_matches a c && star s'
             | EmptyString => false
             end in
      match q with
      | One => fun s =>
          match s with
          | String c s' => atom_matches a c && rest s'
          | EmptyString => false
          end
      | Opt => fun s =>
          rest s
          || match s with
             | String c s' => atom_matches a c && rest s'
             | EmptyString => false
             end
      | Star => star
      | Plus => fun s =>
          match s with
          | String c s' => atom_matches a c && star s'
          | EmptyString => false
          end
      end
  end.

(** [String.prototype.replace('*', '.*')]: a string pattern replaces the
    first occurrence only. *)
Fixpoint replace_first_star (s : string) : string :=
  match s with
  | EmptyString => EmptyString
  | String c s' =>
      if Ascii.eqb c "*" then String "." (String "*" s')
      else String c (replace_first_star s')
  end.

(** Predicates on text, to state what a pattern matches. *)
Fixpoint all_chars (f : ascii -> bool) (s : string) : bool :=
  match s with
  | EmptyString => true
  | String c s' => f c && all_chars f s'
  end.

(** Text without any syntax character: what a pattern means literally. *)
Definition literal_text (s : string) : bool :=
  all_chars (fun c => negb (syntax_char c)) s.

Definition no_star (s : string) : bool :=
  all_chars (fun c => negb (Ascii.eqb c "*")) s.

Definition no_line_terminator (s : string) : bool :=
  all_chars (fun c => negb (line_terminator c)) s.

(** The items of a run of literal characters. *)
Fixpoint literals (s : string) : list item :=
  match s with
  | EmptyString => []
  | String c s' => (Lit c, One) :: literals s'
  end.

(** What the parser has just read after a run of literal characters. *)
Definition after_literals (s : string) (l : last) : last :=
  match s with
  | EmptyString => l
  | String _ _ => AnAtom
  end.


Section Engine.

(** The host engine on sources outside the fragment: [None] when the
    constructor throws a [SyntaxError], else the [test] function. *)
Variable host : string -> option (string -> bool).

(** [new RegExp(source)] followed by [regex.test]. *)
Definition RegExp (source : string) : option (string -> bool) :=
  match parse source with
  | Pattern r => Some (matches r)
  | NothingToRepeat => None
  | OutsideFragment => host source
  end.

End Engine.

End JSRegExp.

(* ------------------------------------------------------------------ *)
(** ** The cache client *)

(** The outcome of an awaited promise. *)
Inductive result (A : Type) : Type :=
| Ok (a : A)
| Rejected (err : string).

Arguments Ok {A} a.
Arguments Rejected {A} err.

(** The four commands of the client the server uses, over the client's own
    state [S].  The [options] argument of [set] is [None] when it is omitted
    or has no [EX], and [Some ex] for [{ EX: ex }]. *)
Record RedisClient (S : Type) : Type := {
  client_get : string -> S -> result (option string) * S;
  client_set : string -> string -> option Z -> S -> result string * S;
  client_del : string -> S -> result Z * S;
  client_keys : string -> S -> result (list string) * S
}.

(** *** The in-memory fallback of [createRedisClient] *)

Record MockState : Type := {
  mockStorage : JSMap.t;
  timers : list (Z * string);   (* due time in ms, key to delete *)
  clock : Z                     (* ms *)
}.

(** The state right after [const mockStorage = new Map()]. *)
Definition mock_init : MockState :=
  {| mockStorage := JSMap.empty; timers := []; clock := 0 |}.

(** [setTimeout] coerces a delay outside [1 .. 2^31-1] to 1 ms. *)
Definition timer_delay (ms : Z) : Z :=
  if (1 <=? ms) && (ms <=? 2147483647) then ms else 1.

(** [setTimeout(() => mockStorage.delete(key), ms)]. *)
Definition setTimeout_delete (key : string) (ms : Z) (st : MockState)
  : MockState :=
  {| mockStorage := mockStorage st;
     timers := timers st ++ [(clock st + timer_delay ms, key)];
     clock := clock st |}.

(** [x || null] on a stored string: the empty string is falsy. *)
Definition or_null (x : option string) : option string :=
  match x with
  | Some EmptyString => None
  | Some v => Some v
  | None => None
  end.

(** [get: async (key) => mockStorage.get(key) || null]. *)
Definition mock_get (key : string) (st : MockState)
  : result (option string) * MockState :=
  (Ok (or_null (JSMap.get key (mockStorage st))), st).

(** [options?.EX] as a condition: a number is truthy unless it is zero. *)
Definition truthy_EX (options : option Z) : bool :=
  match options with
  | Some ex => negb (ex =? 0)
  | None => false
  end.

(** [set]: store, then schedule the removal when [EX] is given. *)
Definition mock_set (key value : string) (options : option Z) (st : MockState)
  : result string * MockState :=
  let st1 := {| mockStorage := JSMap.set key value (mockStorage st);
                timers := timers st;
                clock := clock st |} in
  let st2 :=
    match options with
    | Some ex => if truthy_EX options
                 then setTimeout_delete key (ex * 1000) st1 else st1
    | None => st1
    end in
  (Ok "OK"%string, st2).

(** [del: async (key) => (mockStorage.delete(key) ? 1 : 0)]. *)
Definition mock_del (key : string) (st : MockState) : result Z * MockState :=
  let (was, m) := JSMap.delete key (mockStorage st) in
  (Ok (if was then 1 else 0),
   {| mockStorage := m; timers := timers st; clock := clock st |}).

(** The event loop reaching time [t]: every timer that is due runs its
    callback and is discarded.  The callbacks only delete keys, so the order
    in which they run does not show. *)
Definition is_due (t : Z) (tm : Z * string) : bool := fst tm <=? t.

Definition run_timers (t : Z) (st : MockState) : MockState :=
  {| mockStorage :=
       fold_left (fun m tm => snd (JSMap.delete (snd tm) m))
                 (filter (is_due t) (timers st)) (mockStorage st);
     timers := filter (fun tm => negb (is_due t tm)) (timers st);
     clock := Z.max (clock st) t |}.

Section Fallback.

Variable host : string -> option (string -> bool).

(** [keys]: the pattern becomes an anchored regular expression, which
    filters the keys of the map; a rejected source rejects the promise. *)
Definition mock_keys (pattern : string) (st : MockState)
  : result (list string) * MockState :=
  match JSRegExp.RegExp host
          ("^" ++ JSRegExp.replace_first_star pattern ++ "$") with
  | Some test => (Ok (filter test (JSMap.keys (mockStorage st))), st)
  | None => (Rejected "SyntaxError: Invalid regular expression", st)
  end.

Definition mockClient : RedisClient MockState :=
  {| client_get := mock_get;
     client_set := mock_set;
     client_del := mock_del;
     client_keys := mock_keys |}.

End Fallback.

(* ------------------------------------------------------------------ *)
(** ** Requests, responses and what a request leaves behind *)

#[warnings="-register-all"]
Inductive json : Type :=
| JNull
| JBool (b : bool)
| JNum (n : Z)
| JStr (s : string)
| JArr (l : list json)
| JObj (fields : list (string * json)).

Record request : Type := {
  method : string;
  originalUrl : string;          (* path and query string, as received *)
  params_id : string;            (* req.params.id *)
  params_query : string;         (* req.params.query *)
  params_grade : string;         (* req.params.grade *)
  body : json
}.

(** What happens while a request is served, in order. *)
Inductive event : Type :=
| EvLog (msg : string)                               (* console.log / error *)
| EvGet (key : string)                               (* redisClient.get *)
| EvSet (key value : string) (options : option Z)    (* redisClient.set *)
| EvDel (key : string)                               (* redisClient.del *)
| EvKeys (pattern : string)                          (* redisClient.keys *)
| EvNext                                             (* next() *)
| EvSend (status : Z) (payload : string).            (* the response sent *)

Definition is_send (e : event) : bool :=
  match e with EvSend _ _ => true | _ => false end.

Definition is_next (e : event) : bool :=
  match e with EvNext => true | _ => false end.

(** An event that is not a cache command, or is a [get] or a [set] of the
    given key. *)
Definition only_on_key (key : string) (e : event) : Prop :=
  match e with
  | EvGet k | EvSet k _ _ => k = key
  | EvDel _ | EvKeys _ => False
  | EvLog _ | EvNext | EvSend _ _ => True
  end.

(** The responses delivered to the caller. *)
Definition responses (tr : list event) : list event := filter is_send tr.

(** How many times the downstream handler was invoked. *)
Definition downstream_calls (tr : list event) : nat :=
  length (filter is_next tr).

(** The filter of a [Student.find]. *)
Inductive find_filter : Type :=
| FindAll                          (* {} *)
| FindSearch (query : string)      (* name or email matches, ignoring case *)
| FindGrade (grade : string).      (* { grade } *)

(* ------------------------------------------------------------------ *)
(** ** A state monad for request handling *)

(** The process-wide state a request runs against: the cache client's state,
    the document store, and the events so far. *)
Record World (S DB : Type) : Type := {
  cache : S;
  db : DB;
  trace : list event
}.

Definition M (W A : Type) : Type := W -> A * W.

Definition ret {W A : Type} (a : A) : M W A := fun w => (a, w).

Definition bind {W A B : Type} (m : M W A) (f : A -> M W B) : M W B :=
  fun w => let (a, w') := m w in f a w'.

Notation "x <- m ;; k" := (bind m (fun x => k))
  (at level 61, m at next level, right associativity).
Notation "m ;;; k" := (bind m (fun _ => k))
  (at level 61, right associativity).

(** The world after running [m]. *)
Definition exec {W A : Type} (m : M W A) (w : W) : W := snd (m w).

Section Server.

(** [JSON.stringify] and [JSON.parse] ([None] when it throws). *)
Variable JSON_stringify : json -> string.
Variable JSON_parse : string -> option json.

(** The Mongoose model: [inl msg] is a thrown error with that message,
    [inr None] is [null]. *)
Variable DB : Type.
Variable Student_save : json -> DB -> (string + json) * DB.
Variable Student_find : find_filter -> DB -> string + list json.
Variable Student_findById : string -> DB -> string + option json.
Variable Student_findByIdAndUpdate :
  string -> json -> DB -> (string + option json) * DB.
Variable Student_findByIdAndDelete :
  string -> DB -> (string + option json) * DB.

(** [let redisClient]: the client chosen at startup. *)
Variable S : Type.
Variable redisClient : RedisClient S.

Definition W : Type := World S DB.

Definition emit (e : event) : M W unit :=
  fun w => (tt, {| cache := cache w; db := db w;
                   trace := (trace w ++ [e])%list |}).

Definition log (msg : string) : M W unit := emit (EvLog msg).

Definition cache_op {A : Type} (e : event) (op : S -> result A * S)
  : M W (result A) :=
  fun w => let (r, c) := op (cache w) in
           (r, {| cache := c; db := db w;
                  trace := (trace w ++ [e])%list |}).

Definition redis_get (key : string) : M W (result (option string)) :=
  cache_op (EvGet key) (client_get redisClient key).

Definition redis_set (key value : string) (options : option Z)
  : M W (result string) :=
  cache_op (EvSet key value options)
           (client_set redisClient key value options).

Definition redis_del (key : string) : M W (result Z) :=
  cache_op (EvDel key) (client_del redisClient key).

Definition redis_keys (pattern : string) : M W (result (list string)) :=
  cache_op (EvKeys pattern) (client_keys redisClient pattern).

Definition db_read {A : Type} (f : DB -> A) : M W A :=
  fun w => (f (db w), w).

Definition db_write {A : Type} (f : DB -> A * DB) : M W A :=
  fun w => let (a, d) := f (db w) in
           (a, {| cache := cache w; db := d; trace := trace w |}).

(** [res.json] at the response's current status code. *)
Definition json_fn : Type := Z -> json -> M W unit.

(** A route handler, given the [res.json] it finds on [res]. *)
Definition handler : Type := json_fn -> M W unit.

(** Express's own [res.json]. *)
Definition res_json : json_fn :=
  fun status data => emit (EvSend status (JSON_stringify data)).

(** [if (cachedData)] on what [get] resolved to. *)
Definition truthy (cachedData : option string) : bool :=
  match cachedData with
  | Some EmptyString => false
  | Some _ => true
  | None => false
  end.

Definition cacheKey (req : request) : string :=
  "students:" ++ originalUrl req.

(** The [res.json] that [cacheData] installs on a miss: the [set] is
    issued, the original [res.json] runs, and a rejection of the [set] is
    logged afterwards by its [catch]. *)
Definition caching_json (key : string) (expireTime : Z) : json_fn :=
  fun status data =>
    r <- redis_set key (JSON_stringify data) (Some expireTime) ;;
    res_json status data ;;;
    match r with
    | Rejected _ => log "Redis cache error:"
    | Ok _ => ret tt
    end.

(** [cacheData(expireTime)(req, res, next)]. *)
Definition cacheData (expireTime : Z) (req : request) (next : handler)
  : M W unit :=
  if negb (String.eqb (method req) "GET") then
    emit EvNext ;;; next res_json
  else
    r <- redis_get (cacheKey req) ;;
    match r with
    | Ok cachedData =>
        if truthy cachedData then
          log ("Cache hit for " ++ cacheKey req) ;;;
          match JSON_parse (match cachedData with
                            | Some s => s
                            | None => EmptyString
                            end) with
          | Some data => res_json 200 data
          | None =>
              log "Cache middleware error:" ;;;
              emit EvNext ;;; next res_json
          end
        else
          log ("Cache miss for " ++ cacheKey req) ;;;
          emit EvNext ;;; next (caching_json (cacheKey req) expireTime)
    | Rejected _ =>
        log "Cache middleware error:" ;;;
        emit EvNext ;;; next res_json
    end.

(** [keys.map(key => redisClient.del(key))]: every [del] is issued. *)
Fixpoint del_each (keys : list string) : M W (list (result Z)) :=
  match keys with
  | [] => ret []
  | key :: keys' =>
      r <- redis_del key ;;
      rs <- del_each keys' ;;
      ret (r :: rs)
  end.

Definition is_rejected {A : Type} (r : result A) : bool :=
  match r with Rejected _ => true | Ok _ => false end.

(** [clearCache] up to its first [await]. *)
Definition clearCache_start (pattern : string)
  : M W (result (list string)) :=
  redis_keys pattern.

(** [clearCache] from the point where [keys] has settled. *)
Definition clearCache_resume (pattern : string) (r : result (list string))
  : M W unit :=
  match r with
  | Ok keys =>
      match keys with
      | [] => ret tt
      | _ :: _ =>
          log ("Clearing cache keys matching: " ++ pattern) ;;;
          rs <- del_each keys ;;
          if existsb is_rejected rs then log "Error clearing cache:"
          else ret tt
      end
  | Rejected _ => log "Error clearing cache:"
  end.

(** [await clearCache(pattern)]. *)
Definition clearCache (pattern : string) : M W unit :=
  r <- clearCache_start pattern ;;
  clearCache_resume pattern r.

(** [await Promise.all([clearCache(p1), clearCache(p2)])]: both calls run
    to their first [await], then resume in the order they were made. *)
Definition clearCache_all2 (p1 p2 : string) : M W unit :=
  r1 <- clearCache_start p1 ;;
  r2 <- clearCache_start p2 ;;
  clearCache_resume p1 r1 ;;;
  clearCache_resume p2 r2.

Definition error_body (msg : string) : json := JObj [("error"%string, JStr msg)].

Definition message_body (msg : string) : json :=
  JObj [("message"%string, JStr msg)].

Definition collection_pattern : string := "students:/api/students*".

Definition resource_pattern (id : string) : string :=
  "students:/api/students/" ++ id.

(** A read handler: it computes a status and a payload from the store and
    calls [res.json] once. *)
Definition responds (reply : DB -> Z * json) : handler :=
  fun json =>
    p <- db_read reply ;;
    json (fst p) (snd p).

(** [app.post('/api/students', ...)]. *)
Definition post_students (req : request) : M W unit :=
  r <- db_write (Student_save (body req)) ;;
  match r with
  | inr student =>
      clearCache collection_pattern ;;;
      res_json 201 student
  | inl msg => res_json 400 (error_body msg)
  end.

(** [app.get('/api/students', cacheData(60), ...)]. *)
Definition students_reply (d : DB) : Z * json :=
  match Student_find FindAll d with
  | inr students => (200, JArr students)
  | inl msg => (500, error_body msg)
  end.

Definition get_students (req : request) : M W unit :=
  cacheData 60 req (responds students_reply).

(** [app.get('/api/students/:id', cacheData(60), ...)]. *)
Definition student_reply (id : string) (d : DB) : Z * json :=
  match Student_findById id d with
  | inr (Some student) => (200, student)
  | inr None => (404, message_body "Student not found")
  | inl msg => (500, error_body msg)
  end.

Definition get_student (req : request) : M W unit :=
  cacheData 60 req (responds (student_reply (params_id req))).

(** [app.put('/api/students/:id', ...)]. *)
Definition put_student (req : request) : M W unit :=
  r <- db_write (Student_findByIdAndUpdate (params_id req) (body req)) ;;
  match r with
  | inr (Some student) =>
      clearCache_all2 (resource_pattern (params_id req))
                      collection_pattern ;;;
      res_json 200 student
  | inr None => res_json 404 (message_body "Student not found")
  | inl msg => res_json 400 (error_body msg)
  end.

(** [app.delete('/api/students/:id', ...)]. *)
Definition delete_student (req : request) : M W unit :=
  r <- db_write (Student_findByIdAndDelete (params_id req)) ;;
  match r with
  | inr (Some _) =>
      clearCache_all2 (resource_pattern (params_id req))
                      collection_pattern ;;;
      res_json 200 (message_body "Student deleted successfully")
  | inr None => res_json 404 (message_body "Student not found")
  | inl msg => res_json 500 (error_body msg)
  end.

(** [app.get('/api/students/search/:query', cacheData(30), ...)]. *)
Definition search_reply (query : string) (d : DB) : Z * json :=
  match Student_find (FindSearch query) d with
  | inr students => (200, JArr students)
  | inl msg => (500, error_body msg)
  end.

Definition get_search (req : request) : M W unit :=
  cacheData 30 req (responds (search_reply (params_query req))).

(** [app.get('/api/students/grade/:grade', cacheData(60), ...)]. *)
Definition grade_reply (grade : string) (d : DB) : Z * json :=
  match Student_find (FindGrade grade) d with
  | inr students => (200, JArr students)
  | inl msg => (500, error_body msg)
  end.

Definition get_grade (req : request) : M W unit :=
  cacheData 60 req (responds (grade_reply (params_grade req))).

(** The three routes that change a student. *)
Inductive mutation : Type := Create | Update | Delete.

Definition run_mutation (m : mutation) (req : request) : M W unit :=
  match m with
  | Create => post_students req
  | Update => put_student req
  | Delete => delete_student req
  end.

(** The document a mutation found or made, when it succeeds. *)
Definition mutation_result (m : mutation) (req : request) (d : DB)
  : option json :=
  match m with
  | Create =>
      match fst (Student_save (body req) d) with
      | inr student => Some student
      | inl _ => None
      end
  | Update =>
      match fst (Student_findByIdAndUpdate (params_id req) (body req) d) with
      | inr found => found
      | inl _ => None
      end
  | Delete =>
      match fst (Student_findByIdAndDelete (params_id req) d) with
      | inr found => found
      | inl _ => None
      end
  end.

(** The document store after a mutation. *)
Definition mutation_db (m : mutation) (req : request) (d : DB) : DB :=
  match m with
  | Create => snd (Student_save (body req) d)
  | Update => snd (Student_findByIdAndUpdate (params_id req) (body req) d)
  | Delete => snd (Student_findByIdAndDelete (params_id req) d)
  end.

(** The response of a mutation as the document store alone decides it. *)
Definition mutation_answer (m : mutation) (req : request) (d : DB) : event :=
  match m with
  | Create =>
      match fst (Student_save (body req) d) with
      | inr student => EvSend 201 (JSON_stringify student)
      | inl msg => EvSend 400 (JSON_stringify (error_body msg))
      end
  | Update =>
      match fst (Student_findByIdAndUpdate (params_id req) (body req) d) with
      | inr (Some student) => EvSend 200 (JSON_stringify student)
      | inr None =>
          EvSend 404 (JSON_stringify (message_body "Student not found"))
      | inl msg => EvSend 400 (JSON_stringify (error_body msg))
      end
  | Delete =>
      match fst (Student_findByIdAndDelete (params_id req) d) with
      | inr (Some _) =>
          EvSend 200
                 (JSON_stringify (message_body "Student deleted successfully"))
      | inr None =>
          EvSend 404 (JSON_stringify (message_body "Student not found"))
      | inl msg => EvSend 500 (JSON_stringify (error_body msg))
      end
  end.

(** The patterns a successful mutation clears, in the order of the calls. *)
Definition mutation_patterns (m : mutation) (req : request) : list string :=
  match m with
  | Create => [collection_pattern]
  | Update | Delete => [resource_pattern (params_id req); collection_pattern]
  end.

End Server.

(** ** What an invalidation does to the fallback store *)

(** The keys a settled [keys] call hands to [del]. *)
Definition removed_keys (r : result (list string)) : list string :=
  match r with
  | Ok keys => keys
  | Rejected _ => []
  end.

(** The events of [clearCache] after [keys] has settled, on a client whose
    [del] never rejects. *)
Definition resume_events (pattern : string) (r : result (list string))
  : list event :=
  match r with
  | Ok [] => []
  | Ok keys =>
      EvLog ("Clearing cache keys matching: " ++ pattern) :: map EvDel keys
  | Rejected _ => [EvLog "Error clearing cache:"]
  end.

(** The fallback store after [del] of each key in turn. *)
Definition purge (keys : list string) (st : MockState) : MockState :=
  fold_left (fun st key => snd (mock_del key st)) keys st.

Section Invalidation.

Variable host : string -> option (string -> bool).

(** The keys the patterns select in a store. *)
Definition invalidated (patterns : list string) (st : MockState)
  : list string :=
  flat_map (fun p => removed_keys (fst (mock_keys host p st))) patterns.

(** The events of clearing the patterns together. *)
Definition invalidation_events (patterns : list string) (st : MockState)
  : list event :=
  (map EvKeys patterns
   ++ flat_map (fun p => resume_events p (fst (mock_keys host p st)))
               patterns)%list.

End Invalidation.

(* ------------------------------------------------------------------ *)
(** ** The service running on the fallback store *)

Section Service.

Variable JSON_stringify : json -> string.
Variable JSON_parse : string -> option json.
Variable DB : Type.
Variable Student_save : json -> DB -> (string + json) * DB.
Variable Student_findByIdAndUpdate :
  string -> json -> DB -> (string + option json) * DB.
Variable Student_findByIdAndDelete :
  string -> DB -> (string + option json) * DB.
Variable host : string -> option (string -> bool).

(** One thing that happens to the process: a request to a route behind
    [cacheData], a request to one of the mutation routes, or the event loop
    running the timers that are due. *)
Inductive step (w w' : World MockState DB) : Prop :=
| step_read (expireTime : Z) (req : request) (reply : DB -> Z * json) :
    w' = exec (cacheData JSON_stringify JSON_parse (mockClient host)
                         expireTime req (responds reply)) w ->
    step w w'
| step_mutation (m : mutation) (req : request) :
    w' = exec (run_mutation JSON_stringify Student_save
                            Student_findByIdAndUpdate
                            Student_findByIdAndDelete (mockClient host)
                            m req) w ->
    step w w'
| step_timers (t : Z) :
    w' = {| cache := run_timers t (cache w); db := db w; trace := trace w |} ->
    step w w'.

(** The states the process can be in, from startup on the fallback store. *)
Inductive reachable : World MockState DB -> Prop :=
| reachable_startup (d : DB) :
    reachable {| cache := mock_init; db := d; trace := [] |}
| reachable_step (w w' : World MockState DB) :
    reachable w -> step w w' -> reachable w'.

(** Every entry of the store is in the namespace and holds a serialized
    payload. *)
Definition stored_payloads (st : MockState) : Prop :=
  forall k v,
    JSMap.get k (mockStorage st) = Some v ->
    String.prefix "students:" k = true /\ exists data, v = JSON_stringify data.

End Service.

(* ------------------------------------------------------------------ *)
(** ** The fallback store on its own *)

(** One thing that changes the store: a [set], a [del], or the event loop
    running the timers that are due ([get] and [keys] change nothing). *)
Inductive store_step (st st' : MockState) : Prop :=
| store_set (key value : string) (options : option Z) :
    st' = snd (mock_set key value options st) -> store_step st st'
| store_del (key : string) :
    st' = snd (mock_del key st) -> store_step st st'
| store_timers (t : Z) :
    st' = run_timers t st -> store_step st st'.

(** The states of the store, from [new Map()] on. *)
Inductive store_reachable : MockState -> Prop :=
| store_startup : store_reachable mock_init
| store_next (st st' : MockState) :
    store_reachable st -> store_step st st' -> store_reachable st'.

(** Time passing between two requests: the event loop reaches [t]. *)
Definition elapse {DB : Type} (t : Z) (w : World MockState DB)
  : World MockState DB :=
  {| cache := run_timers t (cache w); db := db w; trace := trace w |}.

(* ------------------------------------------------------------------ *)
(** ** Small stand-ins for the parameters, used to run the model *)

Module Demo.

(** A host engine that rejects every source outside the fragment. *)
Definition host (source : string) : option (string -> bool) := None.

(** A serializer and a parser that agree on a few payloads. *)
Definition stringify (j : json) : string :=
  match j with
  | JNull => "null"
  | JBool true => "true"
  | JBool false => "false"
  | JArr [] => "[]"
  | _ => "{}"
  end.

Definition parse (s : string) : option json :=
  if String.eqb s "null" then Some JNull
  else if String.eqb s "true" then Some (JBool true)
  else if String.eqb s "false" then Some (JBool false)
  else if String.eqb s "[]" then Some (JArr [])
  else if String.eqb s "{}" then Some (JObj [])
  else None.

(** A document store: the students by identifier. *)
Definition DB : Type := list (string * json).

Fixpoint lookup (id : string) (d : DB) : option json :=
  match d with
  | [] => None
  | (id', doc) :: d' => if String.eqb id' id then Some doc else lookup id d'
  end.

Definition remove (id : string) (d : DB) : DB :=
  filter (fun p => negb (String.eqb (fst p) id)) d.

Definition save (doc : json) (d : DB) : (string + json) * DB :=
  (inr doc, (d ++ [("new"%string, doc)])%list).

Definition findById (id : string) (d : DB) : string + option json :=
  inr (lookup id d).

(** Identifiers are cast first, as Mongoose casts to [ObjectId]: one with a
    syntax character in it is refused. *)
Definition findByIdAndUpdate (id : string) (patch : json) (d : DB)
  : (string + option json) * DB :=
  if JSRegExp.literal_text id then
    match lookup id d with
    | Some _ => (inr (Some patch), ((id, patch) :: remove id d))
    | None => (inr None, d)
    end
  else (inl "Cast to ObjectId failed"%string, d).

Definition findByIdAndDelete (id : string) (d : DB)
  : (string + option json) * DB :=
  if JSRegExp.literal_text id then
    match lookup id d with
    | Some doc => (inr (Some doc), remove id d)
    | None => (inr None, d)
    end
  else (inl "Cast to ObjectId failed"%string, d).

(** A client whose every command is rejected. *)
Definition brokenClient : RedisClient unit :=
  {| client_get := fun _ s => (Rejected "The client is closed", s);
     client_set := fun _ _ _ s => (Rejected "The client is closed", s);
     client_del := fun _ s => (Rejected "The client is closed", s);
     client_keys := fun _ s => (Rejected "The client is closed", s) |}.

(** A client that holds the empty string under every key. *)
Definition blankClient : RedisClient unit :=
  {| client_get := fun _ s => (Ok (Some EmptyString), s);
     client_set := fun _ _ _ s => (Ok "OK"%string, s);
     client_del := fun _ s => (Ok 0, s);
     client_keys := fun _ s => (Ok [], s) |}.

(** A fallback store seeded with [set(key, "1")] for each key in turn. *)
Definition seeded (keys : list string) : MockState :=
  fold_left (fun st key => snd (mock_set key "1" None st)) keys mock_init.

(** The key made of [a], a line feed and [b]. *)
Definition a_newline_b : string :=
  String "a" (String "010" (String "b" EmptyString)).

(** The text before a final [|$], if the string ends so. *)
Fixpoint before_bar_dollar (s : string) : option string :=
  if String.eqb s "|$" then Some EmptyString
  else match s with
       | EmptyString => None
       | String c s' =>
           match before_bar_dollar s' with
           | Some t => Some (String c t)
           | None => None
           end
       end.

(** A host engine for the sources [^text|$] with [text] literal: an
    alternation whose second branch is the empty pattern before the end of
    input.  That branch matches at the end of every string, so [test] answers
    true whatever the string.  Every other source is rejected. *)
Definition alternation_host (source : string) : option (string -> bool) :=
  match source with
  | String "^" body =>
      match before_bar_dollar body with
      | Some text =>
          if JSRegExp.literal_text text then Some (fun _ => true) else None
      | None => None
      end
  | _ => None
  end.

(** An update that does not cast the identifier: it finds the document
    under whatever identifier it is stored. *)
Definition findByIdAndUpdate_uncast (id : string) (patch : json) (d : DB)
  : (string + option json) * DB :=
  match lookup id d with
  | Some _ => (inr (Some patch), ((id, patch) :: remove id d))
  | None => (inr None, d)
  end.

(** A student under a twelve-character identifier that ends in [|]. *)
Definition odd_student : DB := [("aaaaaaaaaaa|"%string, JBool true)].

(** A client that holds a text that is not JSON under every key. *)
Definition garbledClient : RedisClient unit :=
  {| client_get := fun _ s => (Ok (Some "oops"%string), s);
     client_set := fun _ _ _ s => (Ok "OK"%string, s);
     client_del := fun _ s => (Ok 0, s);
     client_keys := fun _ s => (Ok [], s) |}.

Definition one_student : DB := [("42"%string, JBool true)].

Definition a_request (m url id : string) : request :=
  {| method := m; originalUrl := url; params_id := id;
     params_query := EmptyString; params_grade := EmptyString;
     body := JBool false |}.

Definition a_world {S : Type} (s : S) (d : DB) : World S DB :=
  {| cache := s; db := d; trace := [] |}.

End Demo.

(* ------------------------------------------------------------------ *)
(** ** Properties of the [Map] *)

Unset Implicit Arguments.

Lemma jsmap_get_set_same (k v : string) (m : JSMap.t) :
  JSMap.get k (JSMap.set k v m) = Some v.
Proof.
  induction m as [|[k' v'] m IH]; simpl.
  - now rewrite String.eqb_refl.
  - destruct (String.eqb k' k) eqn:E; simpl.
    + now rewrite String.eqb_refl.
    + now rewrite E.
Qed.

Lemma jsmap_get_set_other (k k' v : string) (m : JSMap.t) :
  k <> k' -> JSMap.get k' (JSMap.set k v m) = JSMap.get k' m.
Proof.
  intros Hne. induction m as [|[k0 v0] m IH]; simpl.
  - destruct (String.eqb k k') eqn:E; [apply String.eqb_eq in E; easy | easy].
  - destruct (String.eqb k0 k) eqn:E; simpl.
    + apply String.eqb_eq in E; subst k0.
      destruct (String.eqb k k') eqn:E'; [apply String.eqb_eq in E'; easy | easy].
    + now rewrite IH.
Qed.

Lemma jsmap_get_filter (k : string) (f : string -> bool) (m : JSMap.t) :
  JSMap.get k (filter (fun p => f (fst p)) m)
  = if f k then JSMap.get k m else None.
Proof.
  induction m as [|[k' v'] m IH]; simpl.
  - now destruct (f k).
  - destruct (f k') eqn:Ef; simpl.
    + destruct (String.eqb k' k) eqn:E.
      * apply String.eqb_eq in E; subst k'. now rewrite Ef.
      * exact IH.
    + rewrite IH. destruct (String.eqb k' k) eqn:E; [|easy].
      apply String.eqb_eq in E; subst k'. now rewrite Ef.
Qed.

Lemma jsmap_get_delete_same (k : string) (m : JSMap.t) :
  JSMap.get k (snd (JSMap.delete k m)) = None.
Proof.
  unfold JSMap.delete, JSMap.is_key; simpl.
  rewrite (jsmap_get_filter k (fun x => negb (String.eqb x k)) m).
  now rewrite String.eqb_refl.
Qed.

Lemma jsmap_get_delete_other (k k' : string) (m : JSMap.t) :
  k <> k' -> JSMap.get k' (snd (JSMap.delete k m)) = JSMap.get k' m.
Proof.
  intros Hne. unfold JSMap.delete, JSMap.is_key; simpl.
  rewrite (jsmap_get_filter k' (fun x => negb (String.eqb x k)) m).
  destruct (String.eqb k' k) eqn:E; [apply String.eqb_eq in E; now subst | easy].
Qed.

Lemma jsmap_get_delete_None (k k' : string) (m : JSMap.t) :
  JSMap.get k' m = None -> JSMap.get k' (snd (JSMap.delete k m)) = None.
Proof.
  intros H. unfold JSMap.delete, JSMap.is_key; simpl.
  rewrite (jsmap_get_filter k' (fun x => negb (String.eqb x k)) m).
  now destruct (negb _).
Qed.

Lemma jsmap_has_get (k : string) (m : JSMap.t) :
  JSMap.has k m = false <-> JSMap.get k m = None.
Proof.
  unfold JSMap.has, JSMap.is_key.
  induction m as [|[k' v'] m IH]; simpl; [easy|].
  destruct (String.eqb k' k); simpl; [easy | exact IH].
Qed.

Lemma jsmap_get_In_keys (k : string) (m : JSMap.t) :
  JSMap.get k m <> None <-> In k (JSMap.keys m).
Proof.
  unfold JSMap.keys.
  induction m as [|[k' v'] m IH]; simpl; [tauto|].
  destruct (String.eqb k' k) eqn:E.
  - apply String.eqb_eq in E. split; [now left | easy].
  - apply String.eqb_neq in E. rewrite IH. split; [now right | now intros [H|H]].
Qed.

(* ------------------------------------------------------------------ *)
(** ** Properties of the fallback store *)

Lemma or_null_nonempty (v : string) : v <> EmptyString -> or_null (Some v) = Some v.
Proof. destruct v; easy. Qed.

Lemma timer_delay_le (ms : Z) : 0 < ms -> 1 <= timer_delay ms <= ms.
Proof.
  intros H. unfold timer_delay.
  destruct ((1 <=? ms) && (ms <=? 2147483647)) eqn:E; lia.
Qed.

Lemma mock_set_storage (k v : string) (options : option Z) (st : MockState) :
  mockStorage (snd (mock_set k v options st)) = JSMap.set k v (mockStorage st).
Proof.
  unfold mock_set; simpl. destruct options as [ex|]; [|easy].
  now destruct (truthy_EX (Some ex)).
Qed.

Lemma mock_set_clock (k v : string) (options : option Z) (st : MockState) :
  clock (snd (mock_set k v options st)) = clock st.
Proof.
  unfold mock_set; simpl. destruct options as [ex|]; [|easy].
  now destruct (truthy_EX (Some ex)).
Qed.

(** A [set] with a positive [EX] adds one timer and keeps the others. *)
Lemma mock_set_timers_EX (k v : string) (ex : Z) (st : MockState) :
  ex <> 0 ->
  timers (snd (mock_set k v (Some ex) st))
  = (timers st ++ [(clock st + timer_delay (ex * 1000), k)])%list.
Proof.
  intros H. unfold mock_set, truthy_EX; simpl.
  destruct (ex =? 0) eqn:E; [apply Z.eqb_eq in E; easy | easy].
Qed.

(** No [set] cancels a timer. *)
Lemma mock_set_keeps_timers (k v : string) (options : option Z)
      (st : MockState) (tm : Z * string) :
  In tm (timers st) -> In tm (timers (snd (mock_set k v options st))).
Proof.
  intros H. unfold mock_set; simpl. destruct options as [ex|]; [|easy].
  destruct (truthy_EX (Some ex)); simpl; [|easy].
  apply in_or_app; now left.
Qed.

(** What the callbacks that ran leave of a key. *)
Lemma fired_timers_get (k : string) (l : list (Z * string)) (m : JSMap.t) :
  JSMap.get k (fold_left (fun m tm => snd (JSMap.delete (snd tm) m)) l m)
  = if existsb (fun tm => String.eqb (snd tm) k) l then None
    else JSMap.get k m.
Proof.
  revert m. induction l as [|tm l IH]; intros m; cbn [fold_left existsb]; [easy|].
  rewrite IH. destruct (String.eqb (snd tm) k) eqn:E; cbn [orb].
  - apply String.eqb_eq in E; subst k.
    rewrite jsmap_get_delete_same. now destruct (existsb _ l).
  - apply String.eqb_neq in E. now rewrite jsmap_get_delete_other.
Qed.

(** Once the clock has reached a timer's due time, its key is gone. *)
Lemma run_timers_expired (t d : Z) (k : string) (st : MockState) :
  In (d, k) (timers st) -> d <= t ->
  JSMap.get k (mockStorage (run_timers t st)) = None.
Proof.
  intros Hin Hle. unfold run_timers; simpl. rewrite fired_timers_get.
  assert (E : existsb (fun tm => String.eqb (snd tm) k)
                      (filter (is_due t) (timers st)) = true).
  { apply existsb_exists. exists (d, k). split.
    - apply filter_In. split; [easy|]. unfold is_due; simpl. now apply Z.leb_le.
    - simpl. apply String.eqb_refl. }
  now rewrite E.
Qed.

(** While no timer of a key is due, the event loop leaves the key alone. *)
Lemma run_timers_untouched (t : Z) (k : string) (st : MockState) :
  (forall d, In (d, k) (timers st) -> t < d) ->
  JSMap.get k (mockStorage (run_timers t st)) = JSMap.get k (mockStorage st).
Proof.
  intros H. unfold run_timers; simpl. rewrite fired_timers_get.
  destruct (existsb _ _) eqn:E; [|easy].
  apply existsb_exists in E. destruct E as [[d k'] [Hin Hk]]. simpl in Hk.
  apply String.eqb_eq in Hk; subst k'.
  apply filter_In in Hin. destruct Hin as [Hin Hdue].
  unfold is_due in Hdue; simpl in Hdue. apply Z.leb_le in Hdue.
  specialize (H d Hin). lia.
Qed.

(** A timer that is not yet due stays pending. *)
Lemma run_timers_keeps_pending (t d : Z) (k : string) (st : MockState) :
  In (d, k) (timers st) -> t < d -> In (d, k) (timers (run_timers t st)).
Proof.
  intros Hin Hlt. unfold run_timers; simpl. apply filter_In. split; [easy|].
  unfold is_due; simpl. apply negb_true_iff. apply Z.leb_gt. lia.
Qed.

(** C4, as amended.  Read-your-writes on the fallback store for every value
    but the empty string: [set] acknowledges and a [get] of the key then
    returns the value, also after the event loop has run as long as no
    removal of the key was due; [del] of a present key returns 1 and leaves
    the key absent; [del] of an absent key returns 0; and [get] of a missing
    key resolves to the absent value and never rejects. *)
Theorem fallback_read_your_writes
        (st : MockState) (k v : string) (options : option Z)
        (Hv : v <> EmptyString) :
  let st' := snd (mock_set k v options st) in
  fst (mock_set k v options st) = Ok "OK"%string
  /\ fst (mock_get k st') = Ok (Some v)
  /\ (forall t, (forall d, In (d, k) (timers st') -> t < d) ->
                fst (mock_get k (run_timers t st')) = Ok (Some v))
  /\ (JSMap.has k (mockStorage st) = true ->
      fst (mock_del k st) = Ok 1
      /\ fst (mock_get k (snd (mock_del k st))) = Ok None)
  /\ (JSMap.has k (mockStorage st) = false ->
      fst (mock_del k st) = Ok 0 /\ mock_get k st = (Ok None, st))
  /\ (exists r, fst (mock_get k st) = Ok r).
Proof.
  intros st'.
  assert (Hget : fst (mock_get k st') = Ok (Some v)).
  { unfold mock_get; cbn [fst]. unfold st'.
    rewrite mock_set_storage, jsmap_get_set_same.
    now rewrite or_null_nonempty. }
  repeat split.
  - exact Hget.
  - intros t Ht. unfold mock_get; cbn [fst].
    rewrite (run_timers_untouched t k st' Ht). exact Hget.
  - unfold mock_del, JSMap.delete. simpl. now rewrite H.
  - pose proof (jsmap_get_delete_same k (mockStorage st)) as E.
    unfold mock_get, mock_del.
    destruct (JSMap.delete k (mockStorage st)) as [was m].
    cbn [fst snd mockStorage] in *. now rewrite E.
  - unfold mock_del, JSMap.delete. simpl. now rewrite H.
  - unfold mock_get. apply jsmap_has_get in H. now rewrite H.
  - unfold mock_get; simpl. eexists; reflexivity.
Qed.

(** C7, as amended.  On the fallback store a [set] with a positive [EX] of
    [t] seconds schedules one removal of the key, and once [t] seconds have
    passed the key is absent from [get].  An overwrite before that time, with
    any options, does not cancel the removal: at the original due time the
    key is removed whatever was written since.  A [set] that overwrites with
    an [EX] of its own schedules its own removal as well. *)
Theorem fallback_ttl_removal
        (st : MockState) (k v : string) (t : Z) (Ht : 0 < t) :
  let st1 := snd (mock_set k v (Some t) st) in
  let due := clock st + timer_delay (t * 1000) in
  timers st1 = (timers st ++ [(due, k)])%list
  /\ due <= clock st + t * 1000
  /\ (forall t', clock st + t * 1000 <= t' ->
                 fst (mock_get k (run_timers t' st1)) = Ok None)
  /\ (forall t1 v2 options2 t',
        t1 < due -> due <= t' ->
        let st2 := snd (mock_set k v2 options2 (run_timers t1 st1)) in
        In (due, k) (timers st2)
        /\ fst (mock_get k (run_timers t' st2)) = Ok None)
  /\ (forall v2 t2,
        t2 <> 0 ->
        timers (snd (mock_set k v2 (Some t2) st1))
        = (timers st ++ [(due, k); (clock st + timer_delay (t2 * 1000), k)])%list).
Proof.
  intros st1 due.
  assert (Htm : timers st1 = (timers st ++ [(due, k)])%list).
  { unfold st1, due. apply mock_set_timers_EX. lia. }
  assert (Hin : In (due, k) (timers st1)).
  { rewrite Htm. apply in_or_app. right. now left. }
  assert (Hdue : due <= clock st + t * 1000).
  { unfold due. pose proof (timer_delay_le (t * 1000)). lia. }
  split; [exact Htm|]. split; [exact Hdue|]. split; [|split].
  - intros t' Ht'. unfold mock_get; cbn [fst].
    rewrite (run_timers_expired t' due k st1 Hin); [easy | lia].
  - intros t1 v2 options2 t' H1 H2 st2.
    assert (Hin2 : In (due, k) (timers st2)).
    { unfold st2. apply mock_set_keeps_timers.
      now apply run_timers_keeps_pending. }
    split; [exact Hin2|]. unfold mock_get; cbn [fst].
    now rewrite (run_timers_expired t' due k st2 Hin2).
  - intros v2 t2 H2. rewrite mock_set_timers_EX by exact H2.
    rewrite Htm, <- app_assoc. simpl. unfold st1. now rewrite mock_set_clock.
Qed.

(* ------------------------------------------------------------------ *)
(** ** Properties of the pattern engine *)

Import JSRegExp.

Lemma append_nil_r (s : string) : s ++ EmptyString = s.
Proof. induction s as [|c s IH]; simpl; [easy | now rewrite IH]. Qed.

Lemma append_assoc (a b c : string) : (a ++ b) ++ c = a ++ (b ++ c).
Proof. induction a as [|x a IH]; simpl; [easy | now rewrite IH]. Qed.

Lemma all_chars_app (f : ascii -> bool) (a b : string) :
  all_chars f (a ++ b) = all_chars f a && all_chars f b.
Proof.
  induction a as [|c a IH]; simpl; [easy|]. now rewrite IH, andb_assoc.
Qed.

(** A character that is not a syntax character is none of the characters the
    parser gives a meaning to. *)
Lemma not_syntax_char (c : ascii) :
  syntax_char c = false ->
  Ascii.eqb c "$" = false /\ Ascii.eqb c "." = false
  /\ Ascii.eqb c "*" = false /\ Ascii.eqb c "+" = false
  /\ Ascii.eqb c "?" = false.
Proof.
  unfold syntax_char; cbn [existsb]. intros H.
  repeat (apply orb_false_elim in H; destruct H as [? H]). repeat split; easy.
Qed.

Lemma literal_text_no_star (s : string) :
  literal_text s = true -> no_star s = true.
Proof.
  unfold literal_text, no_star. induction s as [|c s IH]; simpl; [easy|].
  intros H. apply andb_true_iff in H. destruct H as [Hc Hs].
  apply negb_true_iff in Hc. apply not_syntax_char in Hc.
  destruct Hc as (_ & _ & Hstar & _). rewrite Hstar. simpl. now apply IH.
Qed.

(** Only the first [*] is replaced; what follows is copied as it is. *)
Lemma replace_first_star_app (pre post : string) :
  no_star pre = true ->
  replace_first_star (pre ++ String "*" post) = pre ++ String "." (String "*" post).
Proof.
  unfold no_star. induction pre as [|c pre IH]; simpl; [easy|].
  intros H. apply andb_true_iff in H. destruct H as [Hc Hs].
  apply negb_true_iff in Hc. rewrite Hc. now rewrite IH.
Qed.

Lemma parse_body_literals (pre rest : string) :
  literal_text pre = true ->
  forall (l : last) (acc : list item),
    parse_body l acc (pre ++ rest)
    = parse_body (after_literals pre l) (rev (literals pre) ++ acc)%list rest.
Proof.
  unfold literal_text. induction pre as [|c pre IH]; intros H l acc; [easy|].
  simpl in H. apply andb_true_iff in H. destruct H as [Hc Hs].
  apply negb_true_iff in Hc. pose proof (not_syntax_char c Hc) as (E1 & E2 & E3 & E4 & E5).
  cbn [append parse_body]. rewrite E1, E2, E3, E4, E5, Hc.
  rewrite (IH Hs). cbn [literals rev after_literals].
  rewrite <- app_assoc. cbn [app]. now destruct pre.
Qed.

(** A run of literal characters matches itself and nothing else. *)
Lemma matches_literals_app (pre : string) (r : list item) (s : string) :
  matches (literals pre ++ r)%list s = true
  <-> exists s', s = pre ++ s' /\ matches r s' = true.
Proof.
  revert s. induction pre as [|c pre IH]; intros s.
  - cbn [literals app append]. split; [intros H; now exists s | now intros [s' [-> H]]].
  - cbn [literals app matches]. destruct s as [|x s].
    + split; [easy | now intros [s' [E _]]].
    + cbn [atom_matches]. rewrite andb_true_iff, IH. split.
      * intros [Hc [s' [-> Hm]]]. apply Ascii.eqb_eq in Hc; subst x.
        now exists s'.
      * intros [s' [E Hm]]. cbn [append] in E. injection E as -> ->.
        split; [apply Ascii.eqb_refl | now exists s'].
Qed.

Lemma matches_nil (s : string) : matches [] s = true <-> s = EmptyString.
Proof. destruct s; simpl; split; easy. Qed.

(** A starred atom takes any run of characters the atom accepts. *)
Lemma matches_star (a : atom) (r : list item) (s : string) :
  matches ((a, Star) :: r) s = true
  <-> exists mid s', s = mid ++ s'
                     /\ all_chars (atom_matches a) mid = true
                     /\ matches r s' = true.
Proof.
  induction s as [|c s IH].
  - cbn [matches]. rewrite orb_false_r. split.
    + intros H. now exists EmptyString, EmptyString.
    + intros (mid & s' & E & _ & Hm). destruct mid; [|easy].
      cbn [append] in E. now subst s'.
  - change (matches ((a, Star) :: r) (String c s))
      with (matches r (String c s)
            || atom_matches a c && matches ((a, Star) :: r) s).
    rewrite orb_true_iff, andb_true_iff, IH. split.
    + intros [H | [Hc (mid & s' & -> & Hall & Hm)]].
      * now exists EmptyString, (String c s).
      * exists (String c mid), s'. cbn [append all_chars]. now rewrite Hc, Hall.
    + intros (mid & s' & E & Hall & Hm). destruct mid as [|x mid].
      * cbn [append] in E. subst s'. now left.
      * cbn [append] in E. injection E as -> ->. cbn [all_chars] in Hall.
        apply andb_true_iff in Hall. destruct Hall as [Hc Hall].
        right. split; [easy|]. now exists mid, s'.
Qed.


(** The source built for the pattern [pre*post] when both parts are literal
    text parses to: the literals of [pre], any run of characters, the
    literals of [post]. *)
Lemma parse_single_wildcard (pre post : string) :
  literal_text pre = true -> literal_text post = true ->
  parse ("^" ++ replace_first_star (pre ++ String "*" post) ++ "$")
  = Pattern (literals pre ++ (Dot, Star) :: literals post)%list.
Proof.
  intros Hpre Hpost.
  rewrite replace_first_star_app by now apply literal_text_no_star.
  cbn [append parse]. rewrite append_assoc.
  rewrite parse_body_literals by exact Hpre.
  cbn [append parse_body Ascii.eqb Bool.eqb].
  assert (E : forall acc,
             parse_body Quantified acc (post ++ "$")
             = Pattern (rev acc ++ literals post)%list).
  { intros acc. rewrite parse_body_literals by exact Hpost.
    cbn [parse_body Ascii.eqb Bool.eqb].
    now rewrite rev_app_distr, rev_involutive. }
  rewrite app_nil_r. cbn [requantify]. rewrite E.
  cbn [rev]. now rewrite rev_involutive, <- app_assoc.
Qed.


(** The keys a pattern selects are the keys of the map the test accepts. *)
Lemma mock_keys_parsed (host : string -> option (string -> bool))
      (pattern : string) (r : list item) (st : MockState) :
  parse ("^" ++ replace_first_star pattern ++ "$") = Pattern r ->
  mock_keys host pattern st
  = (Ok (filter (matches r) (JSMap.keys (mockStorage st))), st).
Proof. intros H. unfold mock_keys, RegExp. now rewrite H. Qed.

(** What the pattern [pre*post] accepts when both parts are literal text. *)
Lemma matches_single_wildcard (pre post key : string) :
  matches (literals pre ++ (Dot, Star) :: literals post)%list key = true
  <-> exists mid, key = pre ++ mid ++ post /\ no_line_terminator mid = true.
Proof.
  rewrite matches_literals_app. split.
  - intros (s' & -> & H). apply matches_star in H.
    destruct H as (mid & s'' & -> & Hmid & H).
    rewrite <- (app_nil_r (literals post)) in H.
    apply matches_literals_app in H. destruct H as (e & -> & He).
    apply matches_nil in He; subst e. rewrite append_nil_r. now exists mid.
  - intros (mid & -> & Hmid). exists (mid ++ post). split; [easy|].
    apply matches_star. exists mid, post. repeat split; [exact Hmid|].
    rewrite <- (app_nil_r (literals post)). apply matches_literals_app.
    exists EmptyString. now rewrite append_nil_r.
Qed.

(** C5, as amended.  For a pattern [pre*post] whose two parts contain no
    regular-expression syntax character, [keys] of the fallback store returns,
    in the order of the map, exactly the keys that are [pre], then any run of
    characters other than line terminators, then [post]: the whole key is
    matched, not a part of it.  In particular, over a store whose keys are
    [students:/api/students], [students:/api/students/123] and [other:/foo],
    the pattern [students:/api/students*] selects exactly the first two. *)
Theorem fallback_keys_single_wildcard
        (host : string -> option (string -> bool)) (st : MockState)
        (pre post : string)
        (Hpre : literal_text pre = true) (Hpost : literal_text post = true) :
  (exists test,
      mock_keys host (pre ++ "*" ++ post) st
      = (Ok (filter test (JSMap.keys (mockStorage st))), st)
      /\ forall key,
          test key = true
          <-> exists mid, key = pre ++ mid ++ post
                          /\ no_line_terminator mid = true)
  /\ ((forall key, In key (JSMap.keys (mockStorage st))
                   <-> key = "students:/api/students"
                       \/ key = "students:/api/students/123"
                       \/ key = "other:/foo") ->
      exists l,
        fst (mock_keys host "students:/api/students*" st) = Ok l
        /\ forall key, In key l
                       <-> key = "students:/api/students"
                           \/ key = "students:/api/students/123").
Proof.
  split.
  - exists (matches (literals pre ++ (Dot, Star) :: literals post)%list).
    split; [|intros key; apply matches_single_wildcard].
    apply mock_keys_parsed. now apply parse_single_wildcard.
  - intros Hkeys.
    assert (P : parse ("^" ++ replace_first_star "students:/api/students*"
                           ++ "$")
                = Pattern (literals "students:/api/students"
                           ++ (Dot, Star) :: literals EmptyString)%list)
      by exact (parse_single_wildcard "students:/api/students" EmptyString
                  eq_refl eq_refl).
    rewrite (mock_keys_parsed host _ _ st P). cbn [fst].
    eexists; split; [reflexivity|]. intros key.
    rewrite filter_In, Hkeys, matches_single_wildcard. split.
    + intros [[-> | [-> | ->]] (mid & E & _)]; [now left | now right | easy].
    + intros [-> | ->].
      * split; [now left|]. now exists EmptyString.
      * split; [right; now left|]. now exists "/123".
Qed.


(* ------------------------------------------------------------------ *)
(** ** Properties of the middleware and of the routes, for any client *)

Lemma responses_app (a b : list event) :
  responses (a ++ b)%list = (responses a ++ responses b)%list.
Proof. unfold responses. apply filter_app. Qed.

Lemma downstream_calls_app (a b : list event) :
  downstream_calls (a ++ b)%list = (downstream_calls a + downstream_calls b)%nat.
Proof. unfold downstream_calls. now rewrite filter_app, length_app. Qed.

Lemma responses_dels (keys : list string) : responses (map EvDel keys) = [].
Proof. induction keys as [|k keys IH]; simpl; easy. Qed.

Ltac run_monad :=
  unfold exec, bind, ret, log, emit, redis_get, redis_set, redis_del,
    redis_keys, cache_op, db_read, db_write, res_json, responds,
    caching_json in *;
  cbn [fst snd cache db trace] in *.

Section AnyClient.

Variable JSON_stringify : json -> string.
Variable JSON_parse : string -> option json.
Variable DB : Type.
Variable Student_save : json -> DB -> (string + json) * DB.
Variable Student_findByIdAndUpdate :
  string -> json -> DB -> (string + option json) * DB.
Variable Student_findByIdAndDelete :
  string -> DB -> (string + option json) * DB.
Variable S : Type.
Variable redisClient : RedisClient S.

(** The events of a request that finds a payload under its key. *)
Lemma cacheData_hit (expireTime : Z) (req : request) (next : handler DB S)
      (w : W DB S) (s : string) (c1 : S) (data : json) :
  method req = "GET"%string ->
  client_get redisClient (cacheKey req) (cache w) = (Ok (Some s), c1) ->
  s <> EmptyString ->
  JSON_parse s = Some data ->
  cacheData JSON_stringify JSON_parse redisClient expireTime req next w
  = (tt, {| cache := c1; db := db w;
            trace := (trace w ++ [EvGet (cacheKey req);
                                  EvLog ("Cache hit for " ++ cacheKey req);
                                  EvSend 200 (JSON_stringify data)])%list |}).
Proof.
  intros Hm Hget Hs Hp. unfold cacheData. rewrite Hm, String.eqb_refl.
  cbn [negb]. run_monad. rewrite Hget.
  destruct s as [|x s]; [easy|]. cbn [truthy]. rewrite Hp. run_monad.
  now rewrite <- !app_assoc.
Qed.

(** The events of a request that finds nothing usable under its key. *)
Lemma cacheData_miss (expireTime : Z) (req : request) (reply : DB -> Z * json)
      (w : W DB S) (cachedData : option string) (c1 : S) :
  method req = "GET"%string ->
  client_get redisClient (cacheKey req) (cache w) = (Ok cachedData, c1) ->
  truthy cachedData = false ->
  let status := fst (reply (db w)) in
  let payload := JSON_stringify (snd (reply (db w))) in
  let written :=
    client_set redisClient (cacheKey req) payload (Some expireTime) c1 in
  cacheData JSON_stringify JSON_parse redisClient expireTime req (responds reply) w
  = (tt, {| cache := snd written; db := db w;
            trace := (trace w
                      ++ [EvGet (cacheKey req);
                          EvLog ("Cache miss for " ++ cacheKey req);
                          EvNext;
                          EvSet (cacheKey req) payload (Some expireTime);
                          EvSend status payload]
                      ++ (if is_rejected (fst written)
                          then [EvLog "Redis cache error:"] else []))%list |}).
Proof.
  intros Hm Hget Ht status payload written.
  unfold cacheData. rewrite Hm, String.eqb_refl. cbn [negb]. run_monad.
  rewrite Hget, Ht. run_monad. subst written payload status.
  destruct (client_set redisClient _ _ _ c1) as [[ok|err] c2];
    run_monad; cbn [is_rejected]; rewrite <- !app_assoc; cbn [app];
    try rewrite app_nil_r; reflexivity.
Qed.

(** The events of a request whose lookup is rejected. *)
Lemma cacheData_get_rejected (expireTime : Z) (req : request)
      (reply : DB -> Z * json) (w : W DB S) (err : string) (c1 : S) :
  method req = "GET"%string ->
  client_get redisClient (cacheKey req) (cache w) = (Rejected err, c1) ->
  cacheData JSON_stringify JSON_parse redisClient expireTime req (responds reply) w
  = (tt, {| cache := c1; db := db w;
            trace := (trace w
                      ++ [EvGet (cacheKey req);
                          EvLog "Cache middleware error:";
                          EvNext;
                          EvSend (fst (reply (db w)))
                                 (JSON_stringify (snd (reply (db w))))])%list |}).
Proof.
  intros Hm Hget. unfold cacheData. rewrite Hm, String.eqb_refl. cbn [negb].
  run_monad. rewrite Hget. run_monad. now rewrite <- !app_assoc.
Qed.

(** The events of a request whose cached text does not parse. *)
Lemma cacheData_unparsable (expireTime : Z) (req : request)
      (reply : DB -> Z * json) (w : W DB S) (s : string) (c1 : S) :
  method req = "GET"%string ->
  client_get redisClient (cacheKey req) (cache w) = (Ok (Some s), c1) ->
  s <> EmptyString ->
  JSON_parse s = None ->
  cacheData JSON_stringify JSON_parse redisClient expireTime req (responds reply) w
  = (tt, {| cache := c1; db := db w;
            trace := (trace w
                      ++ [EvGet (cacheKey req);
                          EvLog ("Cache hit for " ++ cacheKey req);
                          EvLog "Cache middleware error:";
                          EvNext;
                          EvSend (fst (reply (db w)))
                                 (JSON_stringify (snd (reply (db w))))])%list |}).
Proof.
  intros Hm Hget Hs Hp. unfold cacheData. rewrite Hm, String.eqb_refl.
  cbn [negb]. run_monad. rewrite Hget.
  destruct s as [|x s]; [easy|]. cbn [truthy]. rewrite Hp. run_monad.
  now rewrite <- !app_assoc.
Qed.

(** Every [del] is issued, in order, and nothing else happens. *)
Lemma del_each_run (keys : list string) (w : W DB S) :
  db (exec (del_each redisClient keys) w) = db w
  /\ trace (exec (del_each redisClient keys) w)
     = (trace w ++ map EvDel keys)%list.
Proof.
  revert w. induction keys as [|k keys IH]; intros w.
  - cbn [del_each map]. run_monad. now rewrite app_nil_r.
  - cbn [del_each map]. run_monad.
    destruct (client_del redisClient k (cache w)) as [r c1].
    match goal with
    | |- context [del_each redisClient keys ?w1] =>
        specialize (IH w1); destruct (del_each redisClient keys w1) as [rs w2]
    end.
    run_monad. destruct IH as [IH1 IH2]. rewrite IH1, IH2.
    now rewrite <- app_assoc.
Qed.

(** [clearCache] sends nothing and leaves the document store alone. *)
Lemma clearCache_resume_silent (pattern : string) (r : result (list string))
      (w : W DB S) :
  db (exec (clearCache_resume redisClient pattern r) w) = db w
  /\ responses (trace (exec (clearCache_resume redisClient pattern r) w))
     = responses (trace w).
Proof.
  unfold clearCache_resume. destruct r as [[|k keys]|err].
  - now run_monad.
  - run_monad.
    match goal with
    | |- context [del_each redisClient ?l ?w1] =>
        pose proof (del_each_run l w1) as [H1 H2];
        unfold exec in H1, H2;
        destruct (del_each redisClient l w1) as [rs w2]
    end.
    cbn [fst snd db trace] in *.
    destruct (existsb is_rejected rs); run_monad; rewrite ?H1, ?H2;
      rewrite ?responses_app, responses_dels; cbn; now rewrite ?app_nil_r.
  - run_monad. rewrite responses_app. cbn. now rewrite app_nil_r.
Qed.

Lemma clearCache_silent (pattern : string) (w : W DB S) :
  db (exec (clearCache redisClient pattern) w) = db w
  /\ responses (trace (exec (clearCache redisClient pattern) w))
     = responses (trace w).
Proof.
  unfold clearCache, clearCache_start. run_monad.
  destruct (client_keys redisClient pattern (cache w)) as [r c1].
  match goal with
  | |- context [clearCache_resume redisClient pattern r ?w1] =>
      pose proof (clearCache_resume_silent pattern r w1) as [H1 H2]
  end.
  unfold exec in H1, H2. rewrite H1, H2. cbn [db trace].
  rewrite responses_app. cbn. now rewrite app_nil_r.
Qed.

Lemma clearCache_all2_silent (p1 p2 : string) (w : W DB S) :
  db (exec (clearCache_all2 redisClient p1 p2) w) = db w
  /\ responses (trace (exec (clearCache_all2 redisClient p1 p2) w))
     = responses (trace w).
Proof.
  unfold clearCache_all2, clearCache_start. run_monad.
  destruct (client_keys redisClient p1 (cache w)) as [r1 c1].
  cbn [cache db trace].
  destruct (client_keys redisClient p2 c1) as [r2 c2].
  match goal with
  | |- context [clearCache_resume redisClient p1 r1 ?w1] =>
      pose proof (clearCache_resume_silent p1 r1 w1) as [H1 H2];
      unfold exec in H1, H2;
      destruct (clearCache_resume redisClient p1 r1 w1) as [u w2]
  end.
  pose proof (clearCache_resume_silent p2 r2 w2) as [H3 H4].
  unfold exec in H3, H4. cbn [fst snd db trace] in *.
  rewrite H3, H4, H1, H2. rewrite !responses_app. cbn.
  now rewrite !app_nil_r.
Qed.

End AnyClient.

(* ------------------------------------------------------------------ *)
(** ** Properties of the routes on the fallback store *)

Lemma mock_del_storage (k : string) (st : MockState) :
  mockStorage (snd (mock_del k st)) = snd (JSMap.delete k (mockStorage st)).
Proof. unfold mock_del. now destruct (JSMap.delete k (mockStorage st)). Qed.

Lemma purge_get (k : string) (keys : list string) (st : MockState) :
  JSMap.get k (mockStorage (purge keys st))
  = if existsb (String.eqb k) keys then None
    else JSMap.get k (mockStorage st).
Proof.
  unfold purge. revert st.
  induction keys as [|a keys IH]; intros st; cbn [fold_left existsb]; [easy|].
  rewrite IH, mock_del_storage.
  destruct (String.eqb k a) eqn:E; cbn [orb].
  - apply String.eqb_eq in E; subst a. rewrite jsmap_get_delete_same.
    now destruct (existsb _ keys).
  - apply String.eqb_neq in E. rewrite jsmap_get_delete_other; [easy|].
    intros ->. now apply E.
Qed.

Lemma purge_app (l1 l2 : list string) (st : MockState) :
  purge (l1 ++ l2)%list st = purge l2 (purge l1 st).
Proof. unfold purge. apply fold_left_app. Qed.

Lemma purge_In (k : string) (keys : list string) (st : MockState) :
  In k keys -> JSMap.get k (mockStorage (purge keys st)) = None.
Proof.
  intros H. rewrite purge_get.
  assert (E : existsb (String.eqb k) keys = true).
  { apply existsb_exists. exists k. split; [easy | apply String.eqb_refl]. }
  now rewrite E.
Qed.

(** A purge only removes. *)
Lemma purge_absent (k : string) (keys : list string) (st : MockState) :
  JSMap.get k (mockStorage st) = None ->
  JSMap.get k (mockStorage (purge keys st)) = None.
Proof. intros H. rewrite purge_get, H. now destruct (existsb _ keys). Qed.

(** A purge leaves the keys it was not given as they were. *)
Lemma purge_other (k : string) (keys : list string) (st : MockState) :
  ~ In k keys ->
  JSMap.get k (mockStorage (purge keys st)) = JSMap.get k (mockStorage st).
Proof.
  intros H. rewrite purge_get. destruct (existsb _ keys) eqn:E; [|easy].
  apply existsb_exists in E. destruct E as [x [Hx E]].
  apply String.eqb_eq in E; now subst x.
Qed.

Section FallbackClient.

Variable JSON_stringify : json -> string.
Variable DB : Type.
Variable Student_save : json -> DB -> (string + json) * DB.
Variable Student_findByIdAndUpdate :
  string -> json -> DB -> (string + option json) * DB.
Variable Student_findByIdAndDelete :
  string -> DB -> (string + option json) * DB.
Variable host : string -> option (string -> bool).

Lemma mock_keys_state (pattern : string) (st : MockState) :
  mock_keys host pattern st = (fst (mock_keys host pattern st), st).
Proof. unfold mock_keys. now destruct (RegExp host _). Qed.

(** On the fallback store every [del] resolves. *)
Lemma del_each_fallback (keys : list string) (w : W DB MockState) :
  exists rs,
    del_each (mockClient host) keys w
    = (rs, {| cache := purge keys (cache w); db := db w;
              trace := (trace w ++ map EvDel keys)%list |})
    /\ existsb is_rejected rs = false.
Proof.
  revert w. induction keys as [|k keys IH]; intros w.
  - exists []. cbn [del_each map purge fold_left]. run_monad.
    rewrite app_nil_r. now destruct w.
  - cbn [del_each]. run_monad. cbn [mockClient client_del].
    destruct (mock_del k (cache w)) as [r c1] eqn:D.
    match goal with
    | |- context [del_each (mockClient host) keys ?w1] =>
        destruct (IH w1) as [rs [E Hrs]]; rewrite E
    end.
    exists (r :: rs). cbn [cache db trace map]. split.
    + rewrite <- app_assoc. cbn [app]. unfold purge. cbn [fold_left].
      now rewrite D.
    + cbn [existsb]. rewrite Hrs, orb_false_r.
      unfold mock_del in D. destruct (JSMap.delete k _) in D.
      now injection D as <- _.
Qed.

Lemma clearCache_resume_fallback (pattern : string)
      (r : result (list string)) (w : W DB MockState) :
  clearCache_resume (mockClient host) pattern r w
  = (tt, {| cache := purge (removed_keys r) (cache w); db := db w;
            trace := (trace w ++ resume_events pattern r)%list |}).
Proof.
  unfold clearCache_resume. destruct r as [[|k keys]|err].
  - run_monad. cbn. rewrite app_nil_r. now destruct w.
  - run_monad.
    match goal with
    | |- context [del_each (mockClient host) ?l ?w1] =>
        destruct (del_each_fallback l w1) as [rs [E Hrs]]; rewrite E
    end.
    rewrite Hrs. run_monad. cbn [removed_keys resume_events].
    now rewrite <- app_assoc.
  - now run_monad.
Qed.

Lemma clearCache_fallback (pattern : string) (w : W DB MockState) :
  clearCache (mockClient host) pattern w
  = (tt, {| cache := purge (invalidated host [pattern] (cache w)) (cache w);
            db := db w;
            trace := (trace w
                      ++ invalidation_events host [pattern] (cache w))%list |}).
Proof.
  unfold clearCache, clearCache_start. run_monad.
  cbn [mockClient client_keys]. rewrite mock_keys_state.
  rewrite clearCache_resume_fallback. cbn [cache db trace].
  unfold invalidated, invalidation_events. cbn [flat_map map].
  now rewrite !app_nil_r, <- app_assoc.
Qed.

Lemma clearCache_all2_fallback (p1 p2 : string) (w : W DB MockState) :
  clearCache_all2 (mockClient host) p1 p2 w
  = (tt, {| cache := purge (invalidated host [p1; p2] (cache w)) (cache w);
            db := db w;
            trace := (trace w
                      ++ invalidation_events host [p1; p2] (cache w))%list |}).
Proof.
  unfold clearCache_all2, clearCache_start. run_monad.
  cbn [mockClient client_keys].
  rewrite (mock_keys_state p1). cbn [cache db trace].
  rewrite (mock_keys_state p2). cbn [cache db trace].
  rewrite !clearCache_resume_fallback. cbn [cache db trace].
  unfold invalidated, invalidation_events. cbn [flat_map map].
  rewrite !app_nil_r, purge_app. now rewrite <- !app_assoc.
Qed.

(** A successful mutation on the fallback store: the patterns are
    enumerated, every key they select is deleted, and then the response is
    sent. *)
Lemma run_mutation_fallback (m : mutation) (req : request)
      (w : W DB MockState) (doc : json) :
  mutation_result Student_save Student_findByIdAndUpdate
                  Student_findByIdAndDelete m req (db w) = Some doc ->
  run_mutation JSON_stringify Student_save Student_findByIdAndUpdate
               Student_findByIdAndDelete (mockClient host) m req w
  = (tt,
     {| cache := purge (invalidated host (mutation_patterns m req) (cache w))
                       (cache w);
        db := mutation_db Student_save Student_findByIdAndUpdate
                          Student_findByIdAndDelete m req (db w);
        trace := (trace w
                  ++ invalidation_events host (mutation_patterns m req)
                                         (cache w)
                  ++ [mutation_answer JSON_stringify Student_save
                        Student_findByIdAndUpdate Student_findByIdAndDelete
                        m req (db w)])%list |}).
Proof.
  intros H. destruct m; cbn [run_mutation mutation_result mutation_db
                               mutation_answer mutation_patterns] in *.
  - unfold post_students. run_monad.
    destruct (Student_save (body req) (db w)) as [[msg|student] d'];
      cbn [fst snd] in *; [easy|].
    rewrite clearCache_fallback. run_monad. now rewrite <- app_assoc.
  - unfold put_student. run_monad.
    destruct (Student_findByIdAndUpdate _ _ (db w)) as [[msg|[student|]] d'];
      cbn [fst snd] in *; try easy.
    rewrite clearCache_all2_fallback. run_monad. now rewrite <- app_assoc.
  - unfold delete_student. run_monad.
    destruct (Student_findByIdAndDelete _ (db w)) as [[msg|[student|]] d'];
      cbn [fst snd] in *; try easy.
    rewrite clearCache_all2_fallback. run_monad. now rewrite <- app_assoc.
Qed.

End FallbackClient.

(** Clearing patterns sends nothing. *)
Lemma responses_resume_events (pattern : string) (r : result (list string)) :
  responses (resume_events pattern r) = [].
Proof.
  destruct r as [[|k ks]|err]; cbn [resume_events]; [easy | | easy].
  change (responses (EvLog ("Clearing cache keys matching: " ++ pattern)
                       :: map EvDel (k :: ks)))
    with (responses (map EvDel (k :: ks))).
  apply responses_dels.
Qed.

Lemma responses_invalidation_events
      (host : string -> option (string -> bool)) (patterns : list string)
      (st : MockState) :
  responses (invalidation_events host patterns st) = [].
Proof.
  unfold invalidation_events. rewrite responses_app.
  assert (H1 : forall l, responses (map EvKeys l) = []).
  { induction l; cbn; easy. }
  rewrite H1. cbn [app].
  induction patterns as [|p ps IH]; [easy|].
  cbn [flat_map]. now rewrite responses_app, IH, responses_resume_events.
Qed.

(** Every key a pattern selects is deleted. *)
Lemma invalidated_is_deleted
      (host : string -> option (string -> bool)) (patterns : list string)
      (st : MockState) (key : string) :
  In key (invalidated host patterns st) ->
  In (EvDel key) (invalidation_events host patterns st).
Proof.
  intros Hin. unfold invalidation_events. apply in_or_app. right.
  unfold invalidated in Hin. apply in_flat_map in Hin.
  destruct Hin as [p [Hp Hin]]. apply in_flat_map. exists p.
  split; [exact Hp|].
  destruct (fst (mock_keys host p st)) as [[|k ks]|err];
    cbn [removed_keys resume_events] in *; [easy | | easy].
  right. now apply in_map.
Qed.

(** What the collection pattern selects. *)
Lemma collection_keys (host : string -> option (string -> bool))
      (st : MockState) :
  exists test,
    fst (mock_keys host collection_pattern st)
    = Ok (filter test (JSMap.keys (mockStorage st)))
    /\ forall key,
        test key = true
        <-> exists rest, key = "students:/api/students" ++ rest
                         /\ no_line_terminator rest = true.
Proof.
  exists (matches (literals "students:/api/students"
                   ++ (Dot, Star) :: literals EmptyString)%list).
  split.
  - erewrite mock_keys_parsed; [reflexivity|].
    exact (parse_single_wildcard "students:/api/students" EmptyString
             eq_refl eq_refl).
  - intros key. rewrite matches_single_wildcard.
    split; intros [rest [-> H]]; exists rest; now rewrite append_nil_r in *.
Qed.

(** After the patterns of a mutation are cleared, nothing cached under the
    collection path is left. *)
Lemma collection_purged (host : string -> option (string -> bool))
      (m : mutation) (req : request) (st : MockState) (rest : string) :
  no_line_terminator rest = true ->
  JSMap.get ("students:/api/students" ++ rest)
            (mockStorage (purge (invalidated host (mutation_patterns m req) st)
                                st))
  = None.
Proof.
  intros Hrest.
  destruct (JSMap.get ("students:/api/students" ++ rest) (mockStorage st))
    as [v|] eqn:G; [|now apply purge_absent].
  apply purge_In. destruct (collection_keys host st) as [test [E Ht]].
  assert (Hin : In ("students:/api/students" ++ rest)
                   (removed_keys (fst (mock_keys host collection_pattern st)))).
  { rewrite E. cbn [removed_keys]. apply filter_In. split.
    - apply jsmap_get_In_keys. now rewrite G.
    - apply Ht. now exists rest. }
  unfold invalidated. apply in_flat_map. exists collection_pattern.
  split; [|exact Hin]. destruct m; cbn; tauto.
Qed.

(* ------------------------------------------------------------------ *)
(** ** The middleware on the fallback store *)

Section Interceptor.

Variable JSON_stringify : json -> string.
Variable JSON_parse : string -> option json.
Variable DB : Type.
Variable host : string -> option (string -> bool).

Lemma truthy_or_null (x : option string) : truthy (or_null x) = truthy x.
Proof. now destruct x as [[|c s]|]. Qed.

(** A request whose key holds nothing usable in the fallback store: the
    handler runs and its payload is stored under the key. *)
Lemma cacheData_fallback_miss (expireTime : Z) (req : request)
      (reply : DB -> Z * json) (w : W DB MockState) :
  method req = "GET"%string ->
  truthy (JSMap.get (cacheKey req) (mockStorage (cache w))) = false ->
  let status := fst (reply (db w)) in
  let payload := JSON_stringify (snd (reply (db w))) in
  cacheData JSON_stringify JSON_parse (mockClient host) expireTime req
            (responds reply) w
  = (tt, {| cache := snd (mock_set (cacheKey req) payload (Some expireTime)
                                   (cache w));
            db := db w;
            trace := (trace w
                      ++ [EvGet (cacheKey req);
                          EvLog ("Cache miss for " ++ cacheKey req);
                          EvNext;
                          EvSet (cacheKey req) payload (Some expireTime);
                          EvSend status payload])%list |}).
Proof.
  intros Hm Ht status payload.
  rewrite (cacheData_miss JSON_stringify JSON_parse DB MockState
             (mockClient host) expireTime req reply w
             (or_null (JSMap.get (cacheKey req) (mockStorage (cache w))))
             (cache w) Hm eq_refl);
    [|now rewrite truthy_or_null].
  cbn [mockClient client_set]. unfold mock_set at 2. cbn [fst is_rejected].
  now rewrite app_nil_r.
Qed.

(** A request whose key holds a payload in the fallback store. *)
Lemma cacheData_fallback_hit (expireTime : Z) (req : request)
      (next : handler DB MockState) (w : W DB MockState)
      (s : string) (data : json) :
  method req = "GET"%string ->
  JSMap.get (cacheKey req) (mockStorage (cache w)) = Some s ->
  s <> EmptyString ->
  JSON_parse s = Some data ->
  cacheData JSON_stringify JSON_parse (mockClient host) expireTime req next w
  = (tt, {| cache := cache w; db := db w;
            trace := (trace w ++ [EvGet (cacheKey req);
                                  EvLog ("Cache hit for " ++ cacheKey req);
                                  EvSend 200 (JSON_stringify data)])%list |}).
Proof.
  intros Hm Hg Hs Hp.
  apply (cacheData_hit JSON_stringify JSON_parse DB MockState
           (mockClient host) expireTime req next w s (cache w) data Hm); [|exact Hs|exact Hp].
  cbn [mockClient client_get]. unfold mock_get.
  now rewrite Hg, or_null_nonempty.
Qed.

End Interceptor.

(** The four read routes are the middleware in front of a handler that
    answers from the document store, each with its own expiry. *)
Lemma read_routes_expiry
      (JSON_stringify : json -> string) (JSON_parse : string -> option json)
      (DB : Type) (Student_find : find_filter -> DB -> string + list json)
      (Student_findById : string -> DB -> string + option json)
      (S : Type) (redisClient : RedisClient S) (req : request) :
  get_students JSON_stringify JSON_parse Student_find redisClient req
  = cacheData JSON_stringify JSON_parse redisClient 60 req
              (responds (students_reply Student_find))
  /\ get_student JSON_stringify JSON_parse Student_findById redisClient req
     = cacheData JSON_stringify JSON_parse redisClient 60 req
                 (responds (student_reply Student_findById (params_id req)))
  /\ get_search JSON_stringify JSON_parse Student_find redisClient req
     = cacheData JSON_stringify JSON_parse redisClient 30 req
                 (responds (search_reply Student_find (params_query req)))
  /\ get_grade JSON_stringify JSON_parse Student_find redisClient req
     = cacheData JSON_stringify JSON_parse redisClient 60 req
                 (responds (grade_reply Student_find (params_grade req))).
Proof. repeat split. Qed.

(* ------------------------------------------------------------------ *)
(** ** The claims about the middleware and the routes *)

Section Claims.

Variable JSON_stringify : json -> string.
Variable JSON_parse : string -> option json.
Variable DB : Type.
Variable Student_save : json -> DB -> (string + json) * DB.
Variable Student_findByIdAndUpdate :
  string -> json -> DB -> (string + option json) * DB.
Variable Student_findByIdAndDelete :
  string -> DB -> (string + option json) * DB.
Variable host : string -> option (string -> bool).

(** A request that is not a GET goes straight to the handler. *)
Lemma cacheData_passes_through
      (S : Type) (redisClient : RedisClient S) (expireTime : Z)
      (req : request) (reply : DB -> Z * json) (w : W DB S) :
  String.eqb (method req) "GET" = false ->
  cacheData JSON_stringify JSON_parse redisClient expireTime req
            (responds reply) w
  = (tt, {| cache := cache w; db := db w;
            trace := (trace w
                      ++ [EvNext;
                          EvSend (fst (reply (db w)))
                                 (JSON_stringify (snd (reply (db w))))])%list |}).
Proof.
  intros Hm. unfold cacheData. rewrite Hm. cbn [negb]. run_monad. run_monad.
  now rewrite <- app_assoc.
Qed.

(** On the fallback store the middleware either leaves the store as it was
    or writes the payload of the handler under the key of the request. *)
Lemma cacheData_fallback_cache
      (expireTime : Z) (req : request) (reply : DB -> Z * json)
      (w : W DB MockState) :
  let w' := exec (cacheData JSON_stringify JSON_parse (mockClient host)
                            expireTime req (responds reply)) w in
  cache w' = cache w
  \/ cache w' = snd (mock_set (cacheKey req)
                              (JSON_stringify (snd (reply (db w))))
                              (Some expireTime) (cache w)).
Proof.
  intros w'. subst w'. unfold exec.
  destruct (String.eqb (method req) "GET") eqn:Hm.
  - apply String.eqb_eq in Hm.
    destruct (truthy (JSMap.get (cacheKey req) (mockStorage (cache w))))
      eqn:Ht.
    + destruct (JSMap.get (cacheKey req) (mockStorage (cache w)))
        as [[|x s]|] eqn:Hg; try easy.
      assert (Hget : client_get (mockClient host) (cacheKey req) (cache w)
                     = (Ok (Some (String x s)), cache w)).
      { cbn [mockClient client_get]. unfold mock_get. now rewrite Hg. }
      destruct (JSON_parse (String x s)) as [data|] eqn:Hp.
      * rewrite (cacheData_hit JSON_stringify JSON_parse DB MockState
                   (mockClient host) expireTime req (responds reply) w
                   (String x s) (cache w) data Hm Hget ltac:(easy) Hp).
        now left.
      * rewrite (cacheData_unparsable JSON_stringify JSON_parse DB
                   MockState (mockClient host) expireTime req reply w
                   (String x s) (cache w) Hm Hget ltac:(easy) Hp).
        now left.
    + rewrite (cacheData_fallback_miss JSON_stringify JSON_parse DB host
                 expireTime req reply w Hm Ht).
      now right.
  - rewrite (cacheData_passes_through MockState (mockClient host) expireTime
               req reply w Hm).
    now left.
Qed.

(** On the fallback store a mutation only deletes keys. *)
Lemma run_mutation_fallback_cache (m : mutation) (req : request)
      (w : W DB MockState) :
  exists keys,
    cache (exec (run_mutation JSON_stringify Student_save
                              Student_findByIdAndUpdate
                              Student_findByIdAndDelete (mockClient host)
                              m req) w)
    = purge keys (cache w).
Proof.
  destruct (mutation_result Student_save Student_findByIdAndUpdate
              Student_findByIdAndDelete m req (db w)) as [doc|] eqn:Hr.
  - unfold exec.
    rewrite (run_mutation_fallback JSON_stringify DB Student_save
               Student_findByIdAndUpdate Student_findByIdAndDelete host
               m req w doc Hr).
    now eexists.
  - exists []. unfold exec.
    destruct m; cbn [run_mutation mutation_result] in *.
    + unfold post_students. run_monad.
      destruct (Student_save (body req) (db w)) as [[msg|student] d'];
        cbn [fst snd] in *; [|easy]. now run_monad.
    + unfold put_student. run_monad.
      destruct (Student_findByIdAndUpdate _ _ (db w)) as [[msg|[student|]] d'];
        cbn [fst snd] in *; try easy; now run_monad.
    + unfold delete_student. run_monad.
      destruct (Student_findByIdAndDelete _ (db w)) as [[msg|[student|]] d'];
        cbn [fst snd] in *; try easy; now run_monad.
Qed.

Lemma stored_payloads_purge (keys : list string) (st : MockState) :
  stored_payloads JSON_stringify st ->
  stored_payloads JSON_stringify (purge keys st).
Proof.
  intros H k v Hg. apply H. rewrite purge_get in Hg.
  now destruct (existsb _ keys).
Qed.

Lemma stored_payloads_timers (t : Z) (st : MockState) :
  stored_payloads JSON_stringify st ->
  stored_payloads JSON_stringify (run_timers t st).
Proof.
  intros H k v Hg. apply H. unfold run_timers in Hg. cbn [mockStorage] in Hg.
  rewrite fired_timers_get in Hg. now destruct (existsb _ _).
Qed.

Lemma stored_payloads_set (k : string) (data : json) (options : option Z)
      (st : MockState) :
  String.prefix "students:" k = true ->
  stored_payloads JSON_stringify st ->
  stored_payloads JSON_stringify
                  (snd (mock_set k (JSON_stringify data) options st)).
Proof.
  intros Hk H k' v Hg. rewrite mock_set_storage in Hg.
  destruct (String.eqb k k') eqn:E.
  - apply String.eqb_eq in E; subst k'. rewrite jsmap_get_set_same in Hg.
    injection Hg as <-. split; [exact Hk | now exists data].
  - apply String.eqb_neq in E. rewrite jsmap_get_set_other in Hg by exact E.
    now apply H.
Qed.

(** In every state the process reaches from startup, the entries of the
    fallback store are serialized payloads under keys of the namespace. *)
Lemma reachable_stored_payloads (w : W DB MockState) :
  reachable JSON_stringify JSON_parse Student_save Student_findByIdAndUpdate
            Student_findByIdAndDelete host w ->
  stored_payloads JSON_stringify (cache w).
Proof.
  induction 1 as [d | w w' Hw IH Hstep].
  - intros k v Hg. discriminate Hg.
  - destruct Hstep as [expireTime req reply -> | m req -> | t ->].
    + destruct (cacheData_fallback_cache expireTime req reply w) as [E|E];
        rewrite E; [exact IH|].
      apply stored_payloads_set; [|exact IH].
      unfold cacheKey. cbn. now destruct (originalUrl req).
    + destruct (run_mutation_fallback_cache m req w) as [keys E].
      rewrite E. now apply stored_payloads_purge.
    + cbn [cache]. now apply stored_payloads_timers.
Qed.

(** C1.  Read-through on every GET request.  With any client: when the key
    of the request holds a serialized payload, the payload is parsed and
    sent and the handler is not invoked; when the key is absent, the
    handler is invoked, its payload is serialized and [set] under the key
    with the expiry of the route, and the payload is sent once.  On the
    fallback store, from a state where the key is absent: the first call
    invokes the handler and stores its payload, the same request made again
    at once does not invoke it, and both send the same body.  And in every
    state the service reaches on the fallback store, a key that is present
    is a hit: the stored text is the body sent and the handler is not
    invoked (given that [JSON.parse] reads back what [JSON.stringify]
    writes, which is never the empty string). *)
Theorem read_through_cache
        (S : Type) (redisClient : RedisClient S) (expireTime : Z)
        (req : request) (reply : DB -> Z * json)
        (w : W DB S) (wf : W DB MockState)
        (Hm : method req = "GET"%string) :
  let key := cacheKey req in
  (forall s c1 data (next : handler DB S),
      client_get redisClient key (cache w) = (Ok (Some s), c1) ->
      s <> EmptyString ->
      JSON_parse s = Some data ->
      let w' := exec (cacheData JSON_stringify JSON_parse redisClient
                                expireTime req next) w in
      trace w' = (trace w ++ [EvGet key; EvLog ("Cache hit for " ++ key);
                              EvSend 200 (JSON_stringify data)])%list
      /\ downstream_calls (trace w') = downstream_calls (trace w))
  /\ (forall c1,
         client_get redisClient key (cache w) = (Ok None, c1) ->
         let status := fst (reply (db w)) in
         let payload := JSON_stringify (snd (reply (db w))) in
         let w' := exec (cacheData JSON_stringify JSON_parse redisClient
                                   expireTime req (responds reply)) w in
         cache w'
         = snd (client_set redisClient key payload (Some expireTime) c1)
         /\ (exists logged,
                trace w' = (trace w
                            ++ [EvGet key; EvLog ("Cache miss for " ++ key);
                                EvNext;
                                EvSet key payload (Some expireTime);
                                EvSend status payload] ++ logged)%list
                /\ responses logged = [])
         /\ responses (trace w')
            = (responses (trace w) ++ [EvSend status payload])%list
         /\ downstream_calls (trace w')
            = Datatypes.S (downstream_calls (trace w)))
  /\ (forall data',
         JSMap.get key (mockStorage (cache wf)) = None ->
         let status := fst (reply (db wf)) in
         let payload := JSON_stringify (snd (reply (db wf))) in
         payload <> EmptyString ->
         JSON_parse payload = Some data' ->
         JSON_stringify data' = payload ->
         let w1 := exec (cacheData JSON_stringify JSON_parse
                                   (mockClient host) expireTime req
                                   (responds reply)) wf in
         let w2 := exec (cacheData JSON_stringify JSON_parse
                                   (mockClient host) expireTime req
                                   (responds reply)) w1 in
         cache w1 = snd (mock_set key payload (Some expireTime) (cache wf))
         /\ trace w1 = (trace wf
                        ++ [EvGet key; EvLog ("Cache miss for " ++ key);
                            EvNext;
                            EvSet key payload (Some expireTime);
                            EvSend status payload])%list
         /\ trace w2 = (trace w1
                        ++ [EvGet key; EvLog ("Cache hit for " ++ key);
                            EvSend 200 payload])%list
         /\ downstream_calls (trace w1)
            = Datatypes.S (downstream_calls (trace wf))
         /\ downstream_calls (trace w2) = downstream_calls (trace w1))
  /\ ((forall data,
          JSON_stringify data <> EmptyString
          /\ exists back, JSON_parse (JSON_stringify data) = Some back
                          /\ JSON_stringify back = JSON_stringify data) ->
      reachable JSON_stringify JSON_parse Student_save
                Student_findByIdAndUpdate Student_findByIdAndDelete host wf ->
      forall v (next : handler DB MockState),
        JSMap.get key (mockStorage (cache wf)) = Some v ->
        let w' := exec (cacheData JSON_stringify JSON_parse (mockClient host)
                                  expireTime req next) wf in
        trace w' = (trace wf ++ [EvGet key; EvLog ("Cache hit for " ++ key);
                                 EvSend 200 v])%list
        /\ cache w' = cache wf
        /\ downstream_calls (trace w') = downstream_calls (trace wf)).
Proof.
  intros key. split; [|split; [|split]].
  - intros s c1 data next Hget Hs Hp w'. subst w'. unfold exec.
    rewrite (cacheData_hit JSON_stringify JSON_parse DB S redisClient
               expireTime req next w s c1 data Hm Hget Hs Hp).
    cbn [snd trace]. split; [easy|].
    rewrite downstream_calls_app. cbn. lia.
  - intros c1 Hget status payload w'. subst w'. unfold exec.
    rewrite (cacheData_miss JSON_stringify JSON_parse DB S redisClient
               expireTime req reply w None c1 Hm Hget eq_refl).
    cbn [snd cache trace]. fold status payload key.
    set (logged := if is_rejected _ then _ else _).
    assert (Hl : responses logged = [] /\ downstream_calls logged = 0%nat).
    { subst logged. now destruct (is_rejected _). }
    destruct Hl as [Hl1 Hl2]. split; [easy|]. split; [|split].
    + exists logged. now split.
    + rewrite !responses_app, Hl1. cbn. now rewrite ?app_nil_r.
    + rewrite !downstream_calls_app, Hl2. cbn. lia.
  - intros data' Habs status payload Hne Hp Hrt w1 w2.
    assert (E1 : cacheData JSON_stringify JSON_parse (mockClient host)
                           expireTime req (responds reply) wf
                 = (tt, {| cache := snd (mock_set key payload
                                           (Some expireTime) (cache wf));
                           db := db wf;
                           trace := (trace wf
                                     ++ [EvGet key;
                                         EvLog ("Cache miss for " ++ key);
                                         EvNext;
                                         EvSet key payload (Some expireTime);
                                         EvSend status payload])%list |})).
    { apply cacheData_fallback_miss; [exact Hm|].
      fold key. now rewrite Habs. }
    assert (H1 : w1 = snd (cacheData JSON_stringify JSON_parse
                             (mockClient host) expireTime req
                             (responds reply) wf)) by reflexivity.
    rewrite E1 in H1. cbn [snd] in H1.
    assert (E2 : w2 = {| cache := cache w1; db := db w1;
                         trace := (trace w1
                                   ++ [EvGet key;
                                       EvLog ("Cache hit for " ++ key);
                                       EvSend 200 (JSON_stringify data')])%list |}).
    { unfold w2, exec.
      rewrite (cacheData_fallback_hit JSON_stringify JSON_parse DB host
                 expireTime req (responds reply) w1 payload data' Hm);
        [easy | | exact Hne | exact Hp].
      rewrite H1. cbn [cache]. rewrite mock_set_storage.
      apply jsmap_get_set_same. }
    rewrite E2, Hrt. cbn [trace]. rewrite H1. cbn [cache trace].
    repeat split.
    + rewrite downstream_calls_app. cbn. lia.
    + rewrite (downstream_calls_app (trace wf ++ _)%list). cbn. lia.
  - intros Hjson Hreach v next Hg w'.
    destruct (reachable_stored_payloads wf Hreach key v Hg)
      as [_ [data ->]].
    destruct (Hjson data) as [Hne [back [Hp Hb]]].
    subst w'. unfold exec.
    rewrite (cacheData_fallback_hit JSON_stringify JSON_parse DB host
               expireTime req next wf (JSON_stringify data) back Hm Hg Hne Hp).
    cbn [snd trace cache]. rewrite Hb. repeat split.
    rewrite downstream_calls_app. cbn. lia.
Qed.

(** C10.  A key whose stored value is the empty string reads as absent
    from the fallback store, and the middleware treats an empty cached
    string from any client as a miss: it invokes the handler and sends the
    handler's payload, not the cached value. *)
Theorem empty_cached_value_is_a_miss
        (S : Type) (redisClient : RedisClient S) (st : MockState)
        (k : string) (expireTime : Z) (req : request)
        (reply : DB -> Z * json) (w : W DB S) :
  (JSMap.get k (mockStorage st) = Some EmptyString ->
   mock_get k st = (Ok None, st))
  /\ (forall c1,
         method req = "GET"%string ->
         client_get redisClient (cacheKey req) (cache w)
         = (Ok (Some EmptyString), c1) ->
         let status := fst (reply (db w)) in
         let payload := JSON_stringify (snd (reply (db w))) in
         let w' := exec (cacheData JSON_stringify JSON_parse redisClient
                                   expireTime req (responds reply)) w in
         (exists logged,
             trace w' = (trace w
                         ++ [EvGet (cacheKey req);
                             EvLog ("Cache miss for " ++ cacheKey req);
                             EvNext;
                             EvSet (cacheKey req) payload (Some expireTime);
                             EvSend status payload] ++ logged)%list
             /\ responses logged = [])
         /\ responses (trace w')
            = (responses (trace w) ++ [EvSend status payload])%list
         /\ downstream_calls (trace w')
            = Datatypes.S (downstream_calls (trace w))).
Proof.
  split.
  - intros H. unfold mock_get. now rewrite H.
  - intros c1 Hm Hget status payload w'. subst w'. unfold exec.
    rewrite (cacheData_miss JSON_stringify JSON_parse DB S redisClient
               expireTime req reply w (Some EmptyString) c1 Hm Hget eq_refl).
    cbn [snd trace]. fold status payload.
    set (logged := if is_rejected _ then _ else _).
    assert (Hl : responses logged = [] /\ downstream_calls logged = 0%nat).
    { subst logged. now destruct (is_rejected _). }
    destruct Hl as [Hl1 Hl2]. split; [|split].
    + exists logged. now split.
    + rewrite !responses_app, Hl1. cbn. now rewrite ?app_nil_r.
    + rewrite !downstream_calls_app, Hl2. cbn. lia.
Qed.

(** Whatever the client does, a mutation sends the response the document
    store decides, and leaves the document store as the store operation
    left it. *)
Lemma run_mutation_any_client
      (S : Type) (redisClient : RedisClient S) (m : mutation)
      (req : request) (w : W DB S) :
  let w' := exec (run_mutation JSON_stringify Student_save
                               Student_findByIdAndUpdate
                               Student_findByIdAndDelete redisClient m req)
                 w in
  responses (trace w')
  = (responses (trace w)
     ++ [mutation_answer JSON_stringify Student_save
           Student_findByIdAndUpdate Student_findByIdAndDelete m req (db w)])%list
  /\ db w' = mutation_db Student_save Student_findByIdAndUpdate
                         Student_findByIdAndDelete m req (db w).
Proof using Type.
  destruct m; cbn [run_mutation mutation_answer mutation_db].
  - unfold post_students. run_monad.
    destruct (Student_save (body req) (db w)) as [[msg|student] d'];
      cbn [fst snd].
    + run_monad. rewrite responses_app. now cbn.
    + match goal with
      | |- context [clearCache redisClient ?p ?w1] =>
          pose proof (clearCache_silent DB S redisClient p w1) as [H1 H2];
          unfold exec in H1, H2;
          destruct (clearCache redisClient p w1) as [u w2]
      end.
      run_monad. rewrite responses_app, H1, H2. now cbn.
  - unfold put_student. run_monad.
    destruct (Student_findByIdAndUpdate _ _ (db w)) as [[msg|[student|]] d'];
      cbn [fst snd]; try (run_monad; rewrite responses_app; now cbn).
    match goal with
    | |- context [clearCache_all2 redisClient ?p1 ?p2 ?w1] =>
        pose proof (clearCache_all2_silent DB S redisClient p1 p2 w1)
          as [H1 H2];
        unfold exec in H1, H2;
        destruct (clearCache_all2 redisClient p1 p2 w1) as [u w2]
    end.
    run_monad. rewrite responses_app, H1, H2. now cbn.
  - unfold delete_student. run_monad.
    destruct (Student_findByIdAndDelete _ (db w)) as [[msg|[student|]] d'];
      cbn [fst snd]; try (run_monad; rewrite responses_app; now cbn).
    match goal with
    | |- context [clearCache_all2 redisClient ?p1 ?p2 ?w1] =>
        pose proof (clearCache_all2_silent DB S redisClient p1 p2 w1)
          as [H1 H2];
        unfold exec in H1, H2;
        destruct (clearCache_all2 redisClient p1 p2 w1) as [u w2]
    end.
    run_monad. rewrite responses_app, H1, H2. now cbn.
Qed.

(** C3.  No failure of a cache command reaches the caller.  With any
    client: when the lookup is rejected, the request goes on to the handler
    and the handler's response is sent; when the write-back [set] is
    rejected, the rejection is logged and the response is the handler's all
    the same; and the response of a mutation, like the document store
    after it, is what the store operation alone decides, whatever [keys]
    and [del] do. *)
Theorem cache_failures_never_reach_the_caller
        (S : Type) (redisClient : RedisClient S) (expireTime : Z)
        (req : request) (reply : DB -> Z * json) (w : W DB S)
        (Hm : method req = "GET"%string) :
  let status := fst (reply (db w)) in
  let payload := JSON_stringify (snd (reply (db w))) in
  let w' := exec (cacheData JSON_stringify JSON_parse redisClient
                            expireTime req (responds reply)) w in
  (forall err c1,
      client_get redisClient (cacheKey req) (cache w) = (Rejected err, c1) ->
      responses (trace w')
      = (responses (trace w) ++ [EvSend status payload])%list
      /\ downstream_calls (trace w')
         = Datatypes.S (downstream_calls (trace w))
      /\ In (EvLog "Cache middleware error:") (trace w'))
  /\ (forall cachedData c1 err c2,
         client_get redisClient (cacheKey req) (cache w)
         = (Ok cachedData, c1) ->
         truthy cachedData = false ->
         client_set redisClient (cacheKey req) payload (Some expireTime) c1
         = (Rejected err, c2) ->
         responses (trace w')
         = (responses (trace w) ++ [EvSend status payload])%list
         /\ downstream_calls (trace w')
            = Datatypes.S (downstream_calls (trace w))
         /\ In (EvLog "Redis cache error:") (trace w'))
  /\ (forall m mreq,
         let wm := exec (run_mutation JSON_stringify Student_save
                                      Student_findByIdAndUpdate
                                      Student_findByIdAndDelete
                                      redisClient m mreq) w in
         responses (trace wm)
         = (responses (trace w)
            ++ [mutation_answer JSON_stringify Student_save
                  Student_findByIdAndUpdate Student_findByIdAndDelete
                  m mreq (db w)])%list
         /\ db wm = mutation_db Student_save Student_findByIdAndUpdate
                                Student_findByIdAndDelete m mreq (db w)).
Proof using Type.
  clear host. intros status payload w'. split; [|split].
  - intros err c1 Hget. subst w'. unfold exec.
    rewrite (cacheData_get_rejected JSON_stringify JSON_parse DB S
               redisClient expireTime req reply w err c1 Hm Hget).
    cbn [snd trace]. fold status payload. split; [|split].
    + rewrite responses_app. now cbn.
    + rewrite downstream_calls_app. cbn. lia.
    + apply in_or_app. right. cbn. tauto.
  - intros cachedData c1 err c2 Hget Ht Hset. subst w'. unfold exec.
    rewrite (cacheData_miss JSON_stringify JSON_parse DB S redisClient
               expireTime req reply w cachedData c1 Hm Hget Ht).
    cbn [snd trace]. fold status payload. rewrite Hset.
    cbn [fst is_rejected]. split; [|split].
    + rewrite !responses_app. now cbn.
    + rewrite !downstream_calls_app. cbn. lia.
    + apply in_or_app. right. apply in_or_app. right. cbn. tauto.
  - intros m mreq. apply run_mutation_any_client.
Qed.

(** X17.  A successful create, update or delete on the fallback store
    clears the cache before it responds: every [del] precedes the one
    response, which is the last event.  When the mutation has completed,
    nothing cached under a key that begins with [students:/api/students] is
    left, so a GET whose URL begins with [/api/students], spelled as the
    routes spell it, is a miss: the handler is invoked on the document store
    as the mutation left it, and its payload is the response. *)
Theorem no_stale_read_after_mutation
        (m : mutation) (req : request) (w : W DB MockState) (doc : json)
        (Hok : mutation_result Student_save Student_findByIdAndUpdate
                               Student_findByIdAndDelete m req (db w)
               = Some doc) :
  let w' := exec (run_mutation JSON_stringify Student_save
                               Student_findByIdAndUpdate
                               Student_findByIdAndDelete (mockClient host)
                               m req) w in
  (exists cleared,
      trace w' = (trace w ++ cleared
                  ++ [mutation_answer JSON_stringify Student_save
                        Student_findByIdAndUpdate Student_findByIdAndDelete
                        m req (db w)])%list
      /\ responses cleared = []
      /\ forall key,
          In key (invalidated host (mutation_patterns m req) (cache w)) ->
          In (EvDel key) cleared)
  /\ db w' = mutation_db Student_save Student_findByIdAndUpdate
                         Student_findByIdAndDelete m req (db w)
  /\ (forall rest,
         no_line_terminator rest = true ->
         JSMap.get ("students:/api/students" ++ rest)
                   (mockStorage (cache w')) = None)
  /\ (forall (read : request) expireTime (reply : DB -> Z * json) rest,
         method read = "GET"%string ->
         originalUrl read = "/api/students" ++ rest ->
         no_line_terminator rest = true ->
         let status := fst (reply (db w')) in
         let payload := JSON_stringify (snd (reply (db w'))) in
         trace (exec (cacheData JSON_stringify JSON_parse (mockClient host)
                                expireTime read (responds reply)) w')
         = (trace w'
            ++ [EvGet (cacheKey read);
                EvLog ("Cache miss for " ++ cacheKey read);
                EvNext;
                EvSet (cacheKey read) payload (Some expireTime);
                EvSend status payload])%list).
Proof.
  intros w'.
  assert (E : w' = snd (run_mutation JSON_stringify Student_save
                          Student_findByIdAndUpdate Student_findByIdAndDelete
                          (mockClient host) m req w)) by reflexivity.
  rewrite (run_mutation_fallback JSON_stringify DB Student_save
             Student_findByIdAndUpdate Student_findByIdAndDelete host
             m req w doc Hok) in E.
  cbn [snd] in E.
  assert (Hpurged : forall rest,
             no_line_terminator rest = true ->
             JSMap.get ("students:/api/students" ++ rest)
                       (mockStorage (cache w')) = None).
  { intros rest Hrest. rewrite E. cbn [cache].
    now apply collection_purged. }
  split; [|split; [|split]].
  - exists (invalidation_events host (mutation_patterns m req) (cache w)).
    split; [now rewrite E|]. split.
    + apply responses_invalidation_events.
    + intros key. apply invalidated_is_deleted.
  - now rewrite E.
  - exact Hpurged.
  - intros read expireTime reply rest Hm Hurl Hrest status payload.
    unfold exec.
    rewrite (cacheData_fallback_miss JSON_stringify JSON_parse DB host
               expireTime read reply w' Hm); [easy|].
    unfold cacheKey. rewrite Hurl.
    change ("students:" ++ "/api/students" ++ rest)
      with ("students:/api/students" ++ rest).
    now rewrite (Hpurged rest Hrest).
Qed.


Lemma replace_first_star_no_star (s : string) :
  no_star s = true -> replace_first_star s = s.
Proof.
  unfold no_star. induction s as [|c s IH]; cbn; [easy|].
  intros H. apply andb_true_iff in H. destruct H as [Hc Hs].
  apply negb_true_iff in Hc. rewrite Hc. now rewrite IH.
Qed.

(** A pattern of literal text is the expression that matches that text. *)
Lemma parse_literal (s : string) :
  literal_text s = true ->
  parse ("^" ++ replace_first_star s ++ "$") = Pattern (literals s).
Proof.
  intros H. rewrite replace_first_star_no_star
    by now apply literal_text_no_star.
  cbn [append parse]. rewrite parse_body_literals by exact H.
  cbn [parse_body Ascii.eqb Bool.eqb].
  now rewrite app_nil_r, rev_involutive.
Qed.

Lemma matches_literals (s key : string) :
  matches (literals s) key = true <-> key = s.
Proof.
  rewrite <- (app_nil_r (literals s)), matches_literals_app. split.
  - intros (e & -> & He). apply matches_nil in He; subst e.
    apply append_nil_r.
  - intros ->. exists EmptyString. now rewrite append_nil_r.
Qed.

(** The pattern of a resource whose identifier is literal text selects the
    key of that resource and no other. *)
Lemma resource_keys (id : string) (st : MockState) (key : string) :
  literal_text id = true ->
  In key (removed_keys (fst (mock_keys host (resource_pattern id) st))) ->
  key = resource_pattern id.
Proof.
  intros Hid Hin.
  assert (Hlit : literal_text (resource_pattern id) = true).
  { unfold resource_pattern, literal_text. rewrite all_chars_app.
    now rewrite andb_true_iff. }
  rewrite (mock_keys_parsed host _ _ st (parse_literal _ Hlit)) in Hin.
  cbn [fst removed_keys] in Hin. apply filter_In in Hin.
  now apply matches_literals.
Qed.

Lemma prefix_namespace (rest : string) :
  String.prefix "students:" ("students:" ++ rest) = true.
Proof. cbn. now destruct rest. Qed.

(** The keys a successful mutation deletes are in the namespace, when the
    document store finds documents only under identifiers of literal
    text. *)
Lemma invalidated_in_namespace (m : mutation) (req : request)
      (st : MockState) (key : string) :
  (m = Create \/ literal_text (params_id req) = true) ->
  In key (invalidated host (mutation_patterns m req) st) ->
  String.prefix "students:" key = true.
Proof.
  intros Hid Hin.
  assert (Hcoll : In key (removed_keys
                           (fst (mock_keys host collection_pattern st))) ->
                  String.prefix "students:" key = true).
  { destruct (collection_keys host st) as [test [E Ht]]. rewrite E.
    cbn [removed_keys]. intros H. apply filter_In in H.
    destruct H as [_ H]. apply Ht in H. destruct H as [rest [-> _]].
    apply (prefix_namespace ("/api/students" ++ rest)). }
  unfold invalidated in Hin. apply in_flat_map in Hin.
  destruct Hin as [p [Hp Hin]].
  destruct m; cbn [mutation_patterns In] in Hp.
  - destruct Hp as [<-|[]]. now apply Hcoll.
  - destruct Hid as [Hid|Hid]; [easy|].
    destruct Hp as [<-|[<-|[]]]; [|now apply Hcoll].
    apply resource_keys in Hin; [|exact Hid]. subst key.
    apply (prefix_namespace ("/api/students/" ++ params_id req)).
  - destruct Hid as [Hid|Hid]; [easy|].
    destruct Hp as [<-|[<-|[]]]; [|now apply Hcoll].
    apply resource_keys in Hin; [|exact Hid]. subst key.
    apply (prefix_namespace ("/api/students/" ++ params_id req)).
Qed.

(** The cache commands of the middleware are a [get] and at most a [set],
    both on the key of the request. *)
Lemma cacheData_commands
      (S : Type) (redisClient : RedisClient S) (expireTime : Z)
      (req : request) (reply : DB -> Z * json) (w : W DB S) (e : event) :
  method req = "GET"%string ->
  In e (trace (exec (cacheData JSON_stringify JSON_parse redisClient
                               expireTime req (responds reply)) w)) ->
  In e (trace w) \/ only_on_key (cacheKey req) e.
Proof.
  intros Hm. unfold exec.
  destruct (client_get redisClient (cacheKey req) (cache w))
    as [[cachedData|err] c1] eqn:Hget.
  - destruct (truthy cachedData) eqn:Ht.
    + destruct cachedData as [[|x s]|]; try easy.
      destruct (JSON_parse (String x s)) as [data|] eqn:Hp.
      * rewrite (cacheData_hit JSON_stringify JSON_parse DB S redisClient
                   expireTime req (responds reply) w (String x s) c1 data
                   Hm Hget); [|easy|exact Hp].
        cbn [snd trace]. intros H. apply in_app_or in H.
        destruct H as [H|H]; [now left|right].
        cbn in H. decompose [or] H; subst; now cbn.
      * rewrite (cacheData_unparsable JSON_stringify JSON_parse DB S
                   redisClient expireTime req reply w (String x s) c1
                   Hm Hget); [|easy|exact Hp].
        cbn [snd trace]. intros H. apply in_app_or in H.
        destruct H as [H|H]; [now left|right].
        cbn in H. decompose [or] H; subst; now cbn.
    + rewrite (cacheData_miss JSON_stringify JSON_parse DB S redisClient
                 expireTime req reply w cachedData c1 Hm Hget Ht).
      cbn [snd trace]. intros H. apply in_app_or in H.
      destruct H as [H|H]; [now left|right].
      apply in_app_or in H. destruct H as [H|H].
      * cbn in H. decompose [or] H; subst; now cbn.
      * destruct (is_rejected _); cbn in H; decompose [or] H; subst;
          now cbn.
  - rewrite (cacheData_get_rejected JSON_stringify JSON_parse DB S
               redisClient expireTime req reply w err c1 Hm Hget).
    cbn [snd trace]. intros H. apply in_app_or in H.
    destruct H as [H|H]; [now left|right].
    cbn in H. decompose [or] H; subst; now cbn.
Qed.

(** On the fallback store the middleware leaves every other key as it
    was. *)
Lemma cacheData_fallback_other_keys
      (expireTime : Z) (req : request) (reply : DB -> Z * json)
      (w : W DB MockState) (k : string) :
  method req = "GET"%string ->
  k <> cacheKey req ->
  JSMap.get k (mockStorage
                 (cache (exec (cacheData JSON_stringify JSON_parse
                                         (mockClient host) expireTime req
                                         (responds reply)) w)))
  = JSMap.get k (mockStorage (cache w)).
Proof.
  intros Hm Hk. unfold exec.
  destruct (truthy (JSMap.get (cacheKey req) (mockStorage (cache w))))
    eqn:Ht.
  - destruct (JSMap.get (cacheKey req) (mockStorage (cache w)))
      as [[|x s]|] eqn:Hg; try easy.
    assert (Hget : client_get (mockClient host) (cacheKey req) (cache w)
                   = (Ok (Some (String x s)), cache w)).
    { cbn [mockClient client_get]. unfold mock_get. now rewrite Hg. }
    destruct (JSON_parse (String x s)) as [data|] eqn:Hp.
    + now rewrite (cacheData_hit JSON_stringify JSON_parse DB MockState
                     (mockClient host) expireTime req (responds reply) w
                     (String x s) (cache w) data Hm Hget ltac:(easy) Hp).
    + now rewrite (cacheData_unparsable JSON_stringify JSON_parse DB
                     MockState (mockClient host) expireTime req reply w
                     (String x s) (cache w) Hm Hget ltac:(easy) Hp).
  - rewrite (cacheData_fallback_miss JSON_stringify JSON_parse DB host
               expireTime req reply w Hm Ht).
    cbn [snd cache]. rewrite mock_set_storage.
    apply jsmap_get_set_other. intros E. now apply Hk.
Qed.

(** The first thing the middleware does for a GET is the lookup of the key
    of the request. *)
Lemma cacheData_looks_up_the_key
      (S : Type) (redisClient : RedisClient S) (expireTime : Z)
      (req : request) (reply : DB -> Z * json) (w : W DB S) :
  method req = "GET"%string ->
  exists rest,
    trace (exec (cacheData JSON_stringify JSON_parse redisClient expireTime
                           req (responds reply)) w)
    = (trace w ++ EvGet (cacheKey req) :: rest)%list.
Proof.
  intros Hm. unfold exec.
  destruct (client_get redisClient (cacheKey req) (cache w))
    as [[cachedData|err] c1] eqn:Hget.
  - destruct (truthy cachedData) eqn:Ht.
    + destruct cachedData as [[|x s]|]; try easy.
      destruct (JSON_parse (String x s)) as [data|] eqn:Hp.
      * rewrite (cacheData_hit JSON_stringify JSON_parse DB S redisClient
                   expireTime req (responds reply) w (String x s) c1 data
                   Hm Hget ltac:(easy) Hp).
        now eexists.
      * rewrite (cacheData_unparsable JSON_stringify JSON_parse DB S
                   redisClient expireTime req reply w (String x s) c1
                   Hm Hget ltac:(easy) Hp).
        now eexists.
    + rewrite (cacheData_miss JSON_stringify JSON_parse DB S redisClient
                 expireTime req reply w cachedData c1 Hm Hget Ht).
      now eexists.
  - rewrite (cacheData_get_rejected JSON_stringify JSON_parse DB S
               redisClient expireTime req reply w err c1 Hm Hget).
    now eexists.
Qed.

(** C8, as amended.  For every read request the middleware looks up the
    key made of the prefix [students:] followed by the original URL, path
    and query string, and on a miss stores the payload under that key;
    distinct requests have distinct keys; these are its only cache commands,
    and on the fallback store it leaves every key outside the namespace as it
    was.  The invalidation patterns begin with the prefix.  The collection
    pattern never selects a key of another namespace; the pattern of a
    resource does not either when the identifier contains no
    regular-expression syntax character, and then a successful mutation
    leaves the keys outside the namespace as they were.  In every state the
    service reaches on the fallback store, every key of the store begins with
    the prefix. *)
Theorem cache_keys_stay_in_their_namespace
        (S : Type) (redisClient : RedisClient S) (expireTime : Z)
        (req req' : request) (reply : DB -> Z * json)
        (w : W DB S) (wf : W DB MockState)
        (m : mutation) (mreq : request)
        (Hm : method req = "GET"%string) :
  let key := cacheKey req in
  let w' := exec (cacheData JSON_stringify JSON_parse redisClient expireTime
                            req (responds reply)) w in
  let wf' := exec (cacheData JSON_stringify JSON_parse (mockClient host)
                             expireTime req (responds reply)) wf in
  key = "students:" ++ originalUrl req
  /\ String.prefix "students:" key = true
  /\ (key = cacheKey req' -> originalUrl req = originalUrl req')
  /\ (exists rest, trace w' = (trace w ++ EvGet key :: rest)%list)
  /\ (forall cachedData c1,
         client_get redisClient key (cache w) = (Ok cachedData, c1) ->
         truthy cachedData = false ->
         let payload := JSON_stringify (snd (reply (db w))) in
         cache w' = snd (client_set redisClient key payload (Some expireTime)
                                    c1)
         /\ In (EvSet key payload (Some expireTime)) (trace w'))
  /\ (forall e, In e (trace w') -> In e (trace w) \/ only_on_key key e)
  /\ (truthy (JSMap.get key (mockStorage (cache wf))) = false ->
      JSMap.get key (mockStorage (cache wf'))
      = Some (JSON_stringify (snd (reply (db wf)))))
  /\ (forall k,
         String.prefix "students:" k = false ->
         JSMap.get k (mockStorage (cache wf'))
         = JSMap.get k (mockStorage (cache wf)))
  /\ (forall p, In p (mutation_patterns m mreq) ->
                String.prefix "students:" p = true)
  /\ (forall st k,
         In k (removed_keys (fst (mock_keys host collection_pattern st))) ->
         String.prefix "students:" k = true)
  /\ (forall doc,
         mutation_result Student_save Student_findByIdAndUpdate
                         Student_findByIdAndDelete m mreq (db wf) = Some doc ->
         m = Create \/ literal_text (params_id mreq) = true ->
         (forall k,
             In k (invalidated host (mutation_patterns m mreq) (cache wf)) ->
             String.prefix "students:" k = true)
         /\ (forall k,
                String.prefix "students:" k = false ->
                JSMap.get k (mockStorage
                               (cache (exec (run_mutation JSON_stringify
                                               Student_save
                                               Student_findByIdAndUpdate
                                               Student_findByIdAndDelete
                                               (mockClient host) m mreq) wf)))
                = JSMap.get k (mockStorage (cache wf))))
  /\ (forall w0 k v,
         reachable JSON_stringify JSON_parse Student_save
                   Student_findByIdAndUpdate Student_findByIdAndDelete host
                   w0 ->
         JSMap.get k (mockStorage (cache w0)) = Some v ->
         String.prefix "students:" k = true).
Proof.
  intros key w' wf'.
  split; [reflexivity|]. split; [apply prefix_namespace|].
  split; [|split; [|split; [|split; [|split; [|split; [|split;
    [|split; [|split]]]]]]]].
  - unfold key, cacheKey. intros E. cbn [append] in E. now injection E.
  - now apply cacheData_looks_up_the_key.
  - intros cachedData c1 Hget Ht payload. subst w'. unfold exec.
    rewrite (cacheData_miss JSON_stringify JSON_parse DB S redisClient
               expireTime req reply w cachedData c1 Hm Hget Ht).
    cbn [snd cache trace]. split; [reflexivity|].
    apply in_or_app. right. apply in_or_app. left. cbn. tauto.
  - intros e. now apply cacheData_commands.
  - intros Ht. subst wf'. unfold exec.
    rewrite (cacheData_fallback_miss JSON_stringify JSON_parse DB host
               expireTime req reply wf Hm Ht).
    cbn [snd cache]. rewrite mock_set_storage. apply jsmap_get_set_same.
  - intros k Hk. apply cacheData_fallback_other_keys; [exact Hm|].
    intros ->. unfold cacheKey in Hk. now rewrite prefix_namespace in Hk.
  - intros p Hp. destruct m; cbn [mutation_patterns In] in Hp.
    + now destruct Hp as [<-|[]].
    + destruct Hp as [<-|[<-|[]]]; [|easy].
      apply (prefix_namespace ("/api/students/" ++ params_id mreq)).
    + destruct Hp as [<-|[<-|[]]]; [|easy].
      apply (prefix_namespace ("/api/students/" ++ params_id mreq)).
  - intros st k Hin.
    apply (invalidated_in_namespace Create mreq st k); [now left|].
    unfold invalidated. cbn [mutation_patterns flat_map].
    now rewrite app_nil_r.
  - intros doc Hok Hid.
    assert (Hinv : forall k,
               In k (invalidated host (mutation_patterns m mreq) (cache wf)) ->
               String.prefix "students:" k = true).
    { intros k. now apply invalidated_in_namespace. }
    split; [exact Hinv|]. intros k Hk. unfold exec.
    rewrite (run_mutation_fallback JSON_stringify DB Student_save
               Student_findByIdAndUpdate Student_findByIdAndDelete host
               m mreq wf doc Hok).
    cbn [snd cache]. apply purge_other. intros Hin.
    apply Hinv in Hin. now rewrite Hin in Hk.
  - intros w0 k v Hreach Hg.
    exact (proj1 (reachable_stored_payloads w0 Hreach k v Hg)).
Qed.

End Claims.

(* ------------------------------------------------------------------ *)
(** ** The model at concrete inputs *)

(** Against C4 as stated: the empty string written under a key is not read
    back; [get] gives the absent value. *)
Lemma fallback_empty_value_reads_absent :
  let st := snd (mock_set "k" EmptyString None mock_init) in
  JSMap.get "k" (mockStorage st) = Some EmptyString
  /\ fst (mock_get "k" st) = Ok None
  /\ fst (mock_get "k" st) <> Ok (Some EmptyString).
Proof. repeat split. discriminate. Qed.

Lemma fallback_read_your_writes_witness :
  "v"%string <> EmptyString
  /\ fst (mock_get "k" (snd (mock_set "k" "v" (Some 60) mock_init)))
     = Ok (Some "v"%string).
Proof.
  assert (H : "v"%string <> EmptyString) by discriminate.
  split; [exact H|].
  exact (proj1 (proj2 (fallback_read_your_writes mock_init "k" "v" (Some 60) H))).
Defined.

(** Against C5 as stated: under the pattern [a*] the key made of [a], a line
    feed and [b] is not selected, although it begins with [a]; and under
    [a.c*] the key [abc] is selected, although it does not begin with
    [a.c]. *)
Lemma fallback_keys_wildcard_is_not_any_characters :
  fst (mock_keys Demo.host "a*" (Demo.seeded [Demo.a_newline_b])) = Ok []
  /\ fst (mock_keys Demo.host "a.c*" (Demo.seeded ["abc"%string]))
     = Ok ["abc"%string].
Proof. split; reflexivity. Qed.

Lemma fallback_keys_single_wildcard_witness :
  let st := Demo.seeded ["students:/api/students"%string;
                         "students:/api/students/123"%string;
                         "other:/foo"%string] in
  literal_text "students:/api/students" = true
  /\ literal_text EmptyString = true
  /\ (forall key, In key (JSMap.keys (mockStorage st))
                  <-> key = "students:/api/students"%string
                      \/ key = "students:/api/students/123"%string
                      \/ key = "other:/foo"%string)
  /\ exists l,
      fst (mock_keys Demo.host "students:/api/students*" st) = Ok l
      /\ forall key, In key l
                     <-> key = "students:/api/students"%string
                         \/ key = "students:/api/students/123"%string.
Proof.
  intros st.
  assert (Hkeys : forall key, In key (JSMap.keys (mockStorage st))
                              <-> key = "students:/api/students"%string
                                  \/ key = "students:/api/students/123"%string
                                  \/ key = "other:/foo"%string).
  { intros key. simpl. split; intros H; decompose [or] H; subst; tauto. }
  split; [reflexivity|]. split; [reflexivity|]. split; [exact Hkeys|].
  exact (proj2 (fallback_keys_single_wildcard Demo.host st
                  "students:/api/students" EmptyString eq_refl eq_refl)
               Hkeys).
Defined.

(** Against C7 as stated: after an overwrite with an expiry of its own, two
    removals are pending, and the second fires too: it removes a value
    written later without any expiry. *)
Lemma fallback_overwrite_schedules_second_removal :
  let st1 := snd (mock_set "k" "a" (Some 1) mock_init) in
  let st2 := snd (mock_set "k" "b" (Some 2) st1) in
  let st3 := run_timers 1000 st2 in
  let st4 := snd (mock_set "k" "c" None st3) in
  timers st2 = [(1000, "k"%string); (2000, "k"%string)]
  /\ fst (mock_get "k" st3) = Ok None
  /\ timers st4 = [(2000, "k"%string)]
  /\ fst (mock_get "k" st4) = Ok (Some "c"%string)
  /\ fst (mock_get "k" (run_timers 2000 st4)) = Ok None.
Proof. repeat split. Qed.

Lemma fallback_ttl_removal_witness :
  0 < 1
  /\ fst (mock_get "k" (run_timers 1000
                          (snd (mock_set "k" "v" (Some 1) mock_init))))
     = Ok None.
Proof.
  assert (H : 0 < 1) by lia. split; [exact H|].
  refine (proj1 (proj2 (proj2 (fallback_ttl_removal mock_init "k" "v" 1 H)))
            1000 _).
  simpl. lia.
Defined.



Lemma read_through_cache_witness :
  let req := Demo.a_request "GET" "/api/students" EmptyString in
  let reply := fun _ : Demo.DB => (200, JArr []) in
  let wf := Demo.a_world mock_init Demo.one_student in
  let w1 := exec (cacheData Demo.stringify Demo.parse (mockClient Demo.host)
                            60 req (responds reply)) wf in
  let w2 := exec (cacheData Demo.stringify Demo.parse (mockClient Demo.host)
                            60 req (responds reply)) w1 in
  method req = "GET"%string
  /\ JSMap.get (cacheKey req) (mockStorage (cache wf)) = None
  /\ (forall data,
         Demo.stringify data <> EmptyString
         /\ exists back, Demo.parse (Demo.stringify data) = Some back
                         /\ Demo.stringify back = Demo.stringify data)
  /\ trace w2
     = [EvGet "students:/api/students";
        EvLog "Cache miss for students:/api/students";
        EvNext;
        EvSet "students:/api/students" "[]" (Some 60);
        EvSend 200 "[]";
        EvGet "students:/api/students";
        EvLog "Cache hit for students:/api/students";
        EvSend 200 "[]"]
  /\ cache w2 = cache w1.
Proof.
  intros req reply wf w1 w2.
  assert (Hm : method req = "GET"%string) by reflexivity.
  assert (Habs : JSMap.get (cacheKey req) (mockStorage (cache wf)) = None)
    by reflexivity.
  assert (Hjson : forall data,
             Demo.stringify data <> EmptyString
             /\ exists back, Demo.parse (Demo.stringify data) = Some back
                             /\ Demo.stringify back = Demo.stringify data).
  { intros data. split.
    - destruct data as [|[|]| | |[|]|]; discriminate.
    - destruct data as [|[|]| | |[|]|]; eexists; split; reflexivity. }
  assert (Hreach : reachable Demo.stringify Demo.parse Demo.save
                             Demo.findByIdAndUpdate Demo.findByIdAndDelete
                             Demo.host w1).
  { apply reachable_step with (w := wf).
    - apply reachable_startup.
    - now apply step_read with (expireTime := 60) (req := req)
                               (reply := reply). }
  split; [exact Hm|]. split; [exact Habs|]. split; [exact Hjson|].
  pose proof (read_through_cache Demo.stringify Demo.parse Demo.DB Demo.save
                Demo.findByIdAndUpdate Demo.findByIdAndDelete Demo.host unit
                Demo.brokenClient 60 req reply
                (Demo.a_world tt Demo.one_student) wf Hm) as Hfirst.
  pose proof (read_through_cache Demo.stringify Demo.parse Demo.DB Demo.save
                Demo.findByIdAndUpdate Demo.findByIdAndDelete Demo.host unit
                Demo.brokenClient 60 req reply
                (Demo.a_world tt Demo.one_student) w1 Hm) as Hsecond.
  destruct (proj1 (proj2 (proj2 Hfirst)) (JArr []) Habs
                  ltac:(discriminate) eq_refl eq_refl)
    as (_ & H1 & H2 & _).
  destruct (proj2 (proj2 (proj2 Hsecond)) Hjson Hreach "[]"%string
                  (responds reply) eq_refl) as (_ & H3 & _).
  fold w1 in H1, H2. fold w2 in H2, H3.
  split; [|exact H3]. rewrite H2, H1. reflexivity.
Defined.

Lemma no_stale_read_after_mutation_witness :
  let req := Demo.a_request "PUT" "/api/students/42" "42" in
  let w := Demo.a_world (Demo.seeded ["students:/api/students/42"%string;
                                      "other:/foo"%string])
                        Demo.one_student in
  let w' := exec (run_mutation Demo.stringify Demo.save Demo.findByIdAndUpdate
                               Demo.findByIdAndDelete (mockClient Demo.host)
                               Update req) w in
  mutation_result Demo.save Demo.findByIdAndUpdate Demo.findByIdAndDelete
                  Update req (db w) = Some (JBool false)
  /\ JSMap.get "students:/api/students/42" (mockStorage (cache w))
     = Some "1"%string
  /\ JSMap.get "students:/api/students/42" (mockStorage (cache w')) = None.
Proof.
  intros req w w'.
  assert (Hok : mutation_result Demo.save Demo.findByIdAndUpdate
                                Demo.findByIdAndDelete Update req (db w)
                = Some (JBool false)) by reflexivity.
  split; [exact Hok|]. split; [reflexivity|].
  exact (proj1 (proj2 (proj2 (no_stale_read_after_mutation Demo.stringify
                                Demo.parse Demo.DB Demo.save
                                Demo.findByIdAndUpdate Demo.findByIdAndDelete
                                Demo.host Update req w (JBool false) Hok)))
               "/42"%string eq_refl).
Defined.

Lemma cache_failures_never_reach_the_caller_witness :
  let req := Demo.a_request "GET" "/api/students" EmptyString in
  let reply := fun _ : Demo.DB => (200, JArr []) in
  let w := Demo.a_world tt Demo.one_student in
  method req = "GET"%string
  /\ client_get Demo.brokenClient (cacheKey req) (cache w)
     = (Rejected "The client is closed", tt)
  /\ responses (trace (exec (cacheData Demo.stringify Demo.parse
                                       Demo.brokenClient 60 req
                                       (responds reply)) w))
     = [EvSend 200 "[]"].
Proof.
  intros req reply w.
  assert (Hm : method req = "GET"%string) by reflexivity.
  split; [exact Hm|]. split; [reflexivity|].
  exact (proj1 (proj1 (cache_failures_never_reach_the_caller Demo.stringify
                         Demo.parse Demo.DB Demo.save Demo.findByIdAndUpdate
                         Demo.findByIdAndDelete unit Demo.brokenClient 60 req
                         reply w Hm)
                      "The client is closed"%string tt eq_refl)).
Defined.


Lemma cache_keys_stay_in_their_namespace_witness :
  let req := Demo.a_request "GET" "/api/students?page=2" EmptyString in
  let mreq := Demo.a_request "PUT" "/api/students/42" "42" in
  let wf := Demo.a_world (Demo.seeded ["students:/api/students/42"%string;
                                       "other:/foo"%string])
                         Demo.one_student in
  method req = "GET"%string
  /\ mutation_result Demo.save Demo.findByIdAndUpdate Demo.findByIdAndDelete
                     Update mreq (db wf) = Some (JBool false)
  /\ (Update = Create \/ literal_text (params_id mreq) = true)
  /\ cacheKey req = "students:/api/students?page=2"%string
  /\ JSMap.get "other:/foo"
               (mockStorage
                  (cache (exec (run_mutation Demo.stringify Demo.save
                                  Demo.findByIdAndUpdate Demo.findByIdAndDelete
                                  (mockClient Demo.host) Update mreq) wf)))
     = Some "1"%string.
Proof.
  intros req mreq wf.
  assert (Hm : method req = "GET"%string) by reflexivity.
  assert (Hok : mutation_result Demo.save Demo.findByIdAndUpdate
                                Demo.findByIdAndDelete Update mreq (db wf)
                = Some (JBool false)) by reflexivity.
  assert (Hid : Update = Create \/ literal_text (params_id mreq) = true)
    by (right; reflexivity).
  split; [exact Hm|]. split; [exact Hok|]. split; [exact Hid|].
  destruct (cache_keys_stay_in_their_namespace Demo.stringify Demo.parse
              Demo.DB Demo.save Demo.findByIdAndUpdate Demo.findByIdAndDelete
              Demo.host unit Demo.brokenClient 60 req req
              (fun _ => (200, JArr [])) (Demo.a_world tt Demo.one_student) wf
              Update mreq Hm)
    as (Hkey & _ & _ & _ & _ & _ & _ & _ & _ & _ & Hmut & _).
  split; [exact Hkey|].
  rewrite (proj2 (Hmut (JBool false) Hok Hid) "other:/foo"%string eq_refl).
  reflexivity.
Defined.

(** C2.  The code at a request it can receive.  Express matches the path
    of a route without regard to case, so [GET /API/students/42] reaches the
    handler of [/api/students/:id] with [req.params.id] equal to [42], and
    the middleware keys it on the URL as it was spelled.  On the fallback
    store: that GET caches the student; a successful
    [PUT /api/students/42] then clears the patterns, which are spelled in
    lower case, and responds; the same GET made after it is a hit that sends
    the student as cached before the update, while the document store holds
    the updated one. *)
Lemma stale_read_through_alias_spelling :
  let read := Demo.a_request "GET" "/API/students/42" "42" in
  let update := Demo.a_request "PUT" "/api/students/42" "42" in
  let w := Demo.a_world mock_init Demo.one_student in
  let w1 := exec (get_student Demo.stringify Demo.parse Demo.findById
                              (mockClient Demo.host) read) w in
  let w2 := exec (run_mutation Demo.stringify Demo.save Demo.findByIdAndUpdate
                               Demo.findByIdAndDelete (mockClient Demo.host)
                               Update update) w1 in
  let w3 := exec (get_student Demo.stringify Demo.parse Demo.findById
                              (mockClient Demo.host) read) w2 in
  Demo.findById "42" (db w) = inr (Some (JBool true))
  /\ mutation_result Demo.save Demo.findByIdAndUpdate Demo.findByIdAndDelete
                     Update update (db w1) = Some (JBool false)
  /\ Demo.findById "42" (db w2) = inr (Some (JBool false))
  /\ JSMap.get (cacheKey read) (mockStorage (cache w2)) = Some "true"%string
  /\ trace w3
     = (trace w2
        ++ [EvGet "students:/API/students/42";
            EvLog "Cache hit for students:/API/students/42";
            EvSend 200 "true"])%list
  /\ responses (trace w3)
     = [EvSend 200 "true"; EvSend 200 "false"; EvSend 200 "true"]
  /\ downstream_calls (trace w3) = downstream_calls (trace w2).
Proof. repeat split. Qed.

(** Against C8 as stated: the identifier is put into the pattern as it is.
    For a document stored under [aaaaaaaaaaa|], the pattern of the resource
    becomes an alternation whose second branch matches every key, so a
    successful update selects and deletes [other:/foo], a key outside the
    namespace. *)
Lemma resource_pattern_reaches_other_namespace :
  let mreq := Demo.a_request "PUT" "/api/students/aaaaaaaaaaa%7C"
                             "aaaaaaaaaaa|" in
  let wf := Demo.a_world (Demo.seeded ["students:/api/students"%string;
                                       "other:/foo"%string])
                         Demo.odd_student in
  let w' := exec (run_mutation Demo.stringify Demo.save
                               Demo.findByIdAndUpdate_uncast
                               Demo.findByIdAndDelete
                               (mockClient Demo.alternation_host) Update mreq)
                 wf in
  mutation_result Demo.save Demo.findByIdAndUpdate_uncast
                  Demo.findByIdAndDelete Update mreq (db wf)
  = Some (JBool false)
  /\ String.prefix "students:" "other:/foo" = false
  /\ fst (mock_keys Demo.alternation_host
                    (resource_pattern (params_id mreq)) (cache wf))
     = Ok ["students:/api/students"%string; "other:/foo"%string]
  /\ JSMap.get "other:/foo" (mockStorage (cache wf)) = Some "1"%string
  /\ In (EvDel "other:/foo") (trace w')
  /\ JSMap.get "other:/foo" (mockStorage (cache w')) = None.
Proof. repeat split. simpl. tauto. Qed.

Lemma empty_cached_value_is_a_miss_witness :
  let st := snd (mock_set "k" EmptyString None mock_init) in
  let req := Demo.a_request "GET" "/api/students" EmptyString in
  let reply := fun _ : Demo.DB => (200, JArr []) in
  let w := Demo.a_world tt Demo.one_student in
  JSMap.get "k" (mockStorage st) = Some EmptyString
  /\ mock_get "k" st = (Ok None, st)
  /\ method req = "GET"%string
  /\ client_get Demo.blankClient (cacheKey req) (cache w)
     = (Ok (Some EmptyString), tt)
  /\ downstream_calls
       (trace (exec (cacheData Demo.stringify Demo.parse Demo.blankClient 60
                               req (responds reply)) w))
     = 1%nat.
Proof.
  intros st req reply w.
  destruct (empty_cached_value_is_a_miss Demo.stringify Demo.parse Demo.DB
              unit Demo.blankClient st "k" 60 req reply w) as [H1 H2].
  split; [reflexivity|]. split; [exact (H1 eq_refl)|].
  split; [reflexivity|]. split; [reflexivity|].
  exact (proj2 (proj2 (H2 tt eq_refl eq_refl))).
Defined.

(* ------------------------------------------------------------------ *)
(** ** Further properties of the fallback store *)

Lemma jsmap_keys_set (k v : string) (m : JSMap.t) :
  JSMap.keys (JSMap.set k v m)
  = if JSMap.has k m then JSMap.keys m else (JSMap.keys m ++ [k])%list.
Proof.
  unfold JSMap.keys, JSMap.has, JSMap.is_key.
  induction m as [|[k' v'] m IH]; cbn [JSMap.set map existsb fst]; [easy|].
  destruct (String.eqb k' k) eqn:E; cbn [map fst orb].
  - apply String.eqb_eq in E. now subst k'.
  - rewrite IH. now destruct (existsb _ m).
Qed.

Lemma jsmap_keys_delete (k : string) (m : JSMap.t) :
  JSMap.keys (snd (JSMap.delete k m))
  = filter (fun x => negb (String.eqb x k)) (JSMap.keys m).
Proof.
  unfold JSMap.keys, JSMap.delete, JSMap.is_key. cbn [snd].
  induction m as [|[k' v'] m IH]; cbn [filter map fst]; [easy|].
  destruct (String.eqb k' k); cbn [negb map fst]; now rewrite IH.
Qed.

Lemma jsmap_has_In_keys (k : string) (m : JSMap.t) :
  JSMap.has k m = true <-> In k (JSMap.keys m).
Proof.
  rewrite <- jsmap_get_In_keys. pose proof (jsmap_has_get k m) as H.
  destruct (JSMap.has k m); split; intros H1; try easy.
  - intros E. apply H in E. discriminate.
  - exfalso. apply H1. now apply H.
Qed.

Lemma nodup_keys_set (k v : string) (m : JSMap.t) :
  NoDup (JSMap.keys m) -> NoDup (JSMap.keys (JSMap.set k v m)).
Proof.
  intros H. rewrite jsmap_keys_set. destruct (JSMap.has k m) eqn:E; [easy|].
  apply NoDup_app; [exact H | repeat constructor; easy |].
  intros x Hx [<-|[]]. apply jsmap_has_In_keys in Hx. congruence.
Qed.

Lemma nodup_keys_fired (l : list (Z * string)) (m : JSMap.t) :
  NoDup (JSMap.keys m) ->
  NoDup (JSMap.keys (fold_left (fun m tm => snd (JSMap.delete (snd tm) m)) l m)).
Proof.
  revert m. induction l as [|tm l IH]; intros m H; cbn [fold_left]; [easy|].
  apply IH. rewrite jsmap_keys_delete. now apply NoDup_filter.
Qed.

Lemma matches_literals_eqb (p key : string) :
  matches (literals p) key = String.eqb key p.
Proof.
  pose proof (matches_literals p key) as H.
  destruct (matches (literals p) key); destruct (String.eqb key p) eqn:E;
    try reflexivity.
  - apply String.eqb_neq in E. exfalso. apply E. now apply H.
  - apply String.eqb_eq in E. apply H in E. discriminate.
Qed.

Lemma mock_del_timers (k : string) (st : MockState) :
  timers (snd (mock_del k st)) = timers st /\ clock (snd (mock_del k st)) = clock st.
Proof. unfold mock_del. now destruct (JSMap.delete k (mockStorage st)). Qed.

Lemma store_reachable_nodup (st : MockState) :
  store_reachable st -> NoDup (JSMap.keys (mockStorage st)).
Proof.
  induction 1 as [|st st' Hst IH Hstep]; [constructor|].
  destruct Hstep as [key value options -> | key -> | t ->].
  - rewrite mock_set_storage. now apply nodup_keys_set.
  - rewrite mock_del_storage, jsmap_keys_delete. now apply NoDup_filter.
  - unfold run_timers. cbn [mockStorage]. now apply nodup_keys_fired.
Qed.

Lemma jsmap_keys_exact (k : string) (m : JSMap.t) :
  NoDup (JSMap.keys m) ->
  filter (fun key => String.eqb key k) (JSMap.keys m)
  = if JSMap.has k m then [k] else [].
Proof.
  unfold JSMap.has, JSMap.is_key, JSMap.keys.
  induction m as [|[k' v'] m IH]; intros Hnd; [easy|].
  cbn [map fst filter existsb] in *. inversion Hnd as [|x xs Hx Hxs]; subst.
  destruct (String.eqb k' k) eqn:Ek; cbn [orb].
  - apply String.eqb_eq in Ek; subst k'. f_equal.
    specialize (IH Hxs).
    destruct (existsb (fun p => String.eqb (fst p) k) m) eqn:Ex; [|exact IH].
    exfalso. apply Hx. apply existsb_exists in Ex.
    destruct Ex as [[a b] [Hin Ha]]. cbn [fst] in Ha.
    apply String.eqb_eq in Ha; subst a.
    now apply (in_map fst) in Hin.
  - now apply IH.
Qed.


(** X2.  An entry written without an expiry ([set] with no options, or with
    [EX] of 0, which [if (options?.EX)] takes for none) schedules no
    removal: when no removal of the key was pending, the entry is still read
    back however far the clock advances. *)
Theorem fallback_set_without_expiry_stays
        (st : MockState) (k v : string) (options : option Z) (t : Z)
        (Hoptions : options = None \/ options = Some 0)
        (Hpending : forall d, ~ In (d, k) (timers st)) :
  let st' := snd (mock_set k v options st) in
  timers st' = timers st
  /\ JSMap.get k (mockStorage (run_timers t st')) = Some v
  /\ fst (mock_get k (run_timers t st')) = Ok (or_null (Some v)).
Proof.
  intros st'.
  assert (Ht : timers st' = timers st).
  { unfold st'. destruct Hoptions as [-> | ->]; reflexivity. }
  assert (Hg : JSMap.get k (mockStorage (run_timers t st')) = Some v).
  { rewrite run_timers_untouched.
    - unfold st'. rewrite mock_set_storage. apply jsmap_get_set_same.
    - intros d Hd. rewrite Ht in Hd. now apply Hpending in Hd. }
  split; [exact Ht|]. split; [exact Hg|].
  unfold mock_get. cbn [fst]. now rewrite Hg.
Qed.

(** X3.  On the fallback store a [set] or a [del] of one key leaves what
    [get] returns for every other key as it was, and cancels or adds no
    removal of another key. *)
Theorem fallback_other_keys_untouched
        (st : MockState) (k k' v : string) (options : option Z)
        (Hne : k <> k') :
  fst (mock_get k' (snd (mock_set k v options st))) = fst (mock_get k' st)
  /\ fst (mock_get k' (snd (mock_del k st))) = fst (mock_get k' st)
  /\ (forall d, In (d, k') (timers (snd (mock_set k v options st)))
                <-> In (d, k') (timers st))
  /\ timers (snd (mock_del k st)) = timers st.
Proof.
  split; [|split; [|split]].
  - unfold mock_get. cbn [fst].
    now rewrite mock_set_storage, jsmap_get_set_other.
  - unfold mock_get. cbn [fst].
    now rewrite mock_del_storage, jsmap_get_delete_other.
  - intros d. split; [|apply mock_set_keeps_timers].
    unfold mock_set. cbn [snd]. destruct options as [ex|]; [|easy].
    destruct (truthy_EX (Some ex)); [|easy].
    unfold setTimeout_delete. cbn [timers]. intros H.
    apply in_app_or in H. destruct H as [H|[H|[]]]; [easy|].
    injection H as _ E. congruence.
  - apply mock_del_timers.
Qed.

(** X4.  The empty string as a value: after [set(k, "")] the fallback store
    answers [get(k)] with the absent value, yet [del(k)] answers 1, and
    [keys] lists [k] when asked for [k] itself (a pattern of literal
    text). *)
Theorem fallback_empty_value_is_stored
        (host : string -> option (string -> bool)) (st : MockState)
        (k : string) (options : option Z)
        (Hk : literal_text k = true) :
  let st' := snd (mock_set k EmptyString options st) in
  fst (mock_get k st') = Ok None
  /\ fst (mock_del k st') = Ok 1
  /\ exists l, fst (mock_keys host k st') = Ok l /\ In k l.
Proof.
  intros st'.
  assert (Hg : JSMap.get k (mockStorage st') = Some EmptyString).
  { unfold st'. rewrite mock_set_storage. apply jsmap_get_set_same. }
  assert (Hin : In k (JSMap.keys (mockStorage st'))).
  { apply jsmap_get_In_keys. now rewrite Hg. }
  split; [|split].
  - unfold mock_get. cbn [fst]. now rewrite Hg.
  - unfold mock_del, JSMap.delete.
    apply jsmap_has_In_keys in Hin. now rewrite Hin.
  - rewrite (mock_keys_parsed host k _ st' (parse_literal k Hk)). cbn [fst].
    eexists. split; [reflexivity|]. apply filter_In. split; [exact Hin|].
    now apply matches_literals.
Qed.

(** X5.  A pattern of literal text, without any wildcard, is a lookup of
    that exact key: [keys] returns the keys equal to the pattern, so the
    pattern itself when it is a key of the store and nothing otherwise; a
    longer key that begins with the pattern is not selected. *)
Theorem fallback_keys_literal_pattern_is_exact
        (host : string -> option (string -> bool)) (st : MockState)
        (pattern : string)
        (Hp : literal_text pattern = true) :
  mock_keys host pattern st
  = (Ok (filter (fun key => String.eqb key pattern)
                (JSMap.keys (mockStorage st))), st)
  /\ (forall l key,
         fst (mock_keys host pattern st) = Ok l ->
         (In key l <-> key = pattern
                       /\ JSMap.get pattern (mockStorage st) <> None))
  /\ (store_reachable st ->
      fst (mock_keys host pattern st)
      = Ok (if JSMap.has pattern (mockStorage st) then [pattern] else [])).
Proof.
  assert (E : mock_keys host pattern st
              = (Ok (filter (fun key => String.eqb key pattern)
                            (JSMap.keys (mockStorage st))), st)).
  { rewrite (mock_keys_parsed host pattern _ st (parse_literal pattern Hp)).
    f_equal. f_equal. apply filter_ext. intros key.
    apply matches_literals_eqb. }
  split; [exact E|]. split.
  - intros l key Hl. rewrite E in Hl. cbn [fst] in Hl. injection Hl as <-.
    rewrite filter_In, String.eqb_eq, jsmap_get_In_keys. split.
    + intros [Hin ->]. now split.
    + intros [-> Hin]. now split.
  - intros Hst. rewrite E. cbn [fst]. f_equal.
    apply jsmap_keys_exact. now apply store_reachable_nodup.
Qed.

(* ------------------------------------------------------------------ *)
(** ** Further properties of [clearCache] *)

Lemma parse_double_star (pre rest : string) :
  literal_text pre = true ->
  parse ("^" ++ replace_first_star (pre ++ "**" ++ rest) ++ "$")
  = NothingToRepeat.
Proof.
  intros Hpre. cbn [append].
  rewrite replace_first_star_app by now apply literal_text_no_star.
  cbn [append parse]. rewrite append_assoc.
  rewrite parse_body_literals by exact Hpre.
  reflexivity.
Qed.

Lemma filter_twice {A : Type} (f g : A -> bool) (l : list A) :
  filter f (filter g l) = filter (fun x => g x && f x) l.
Proof.
  induction l as [|x l IH]; cbn [filter]; [easy|].
  destruct (g x); cbn [filter andb]; now rewrite IH.
Qed.

Lemma filter_none {A : Type} (f : A -> bool) (l : list A) :
  (forall x, In x l -> f x = false) -> filter f l = [].
Proof.
  induction l as [|x l IH]; intros H; cbn [filter]; [easy|].
  rewrite (H x (or_introl eq_refl)). apply IH. intros y Hy. apply H. now right.
Qed.

Lemma keys_filter (h : string -> bool) (m : JSMap.t) :
  JSMap.keys (filter (fun p => h (fst p)) m) = filter h (JSMap.keys m).
Proof.
  unfold JSMap.keys. induction m as [|[k v] m IH]; cbn [filter map fst]; [easy|].
  destruct (h k); cbn [map fst]; now rewrite IH.
Qed.

(** The store after a purge, in one step. *)
Lemma purge_state (keys : list string) (st : MockState) :
  purge keys st
  = {| mockStorage :=
         filter (fun p => negb (existsb (String.eqb (fst p)) keys))
                (mockStorage st);
       timers := timers st;
       clock := clock st |}.
Proof.
  unfold purge. revert st.
  induction keys as [|k keys IH]; intros st; cbn [fold_left existsb].
  - cbn [negb]. destruct st as [m tm c]. cbn [mockStorage timers clock].
    f_equal. induction m as [|x m IHm]; cbn [filter]; [easy|].
    now rewrite <- IHm.
  - rewrite IH. unfold mock_del, JSMap.delete. cbn [snd mockStorage timers clock].
    f_equal. rewrite filter_twice. apply filter_ext. intros p.
    unfold JSMap.is_key. now rewrite negb_orb.
Qed.

(** X6.  A pattern with two [*] in a row after literal text is not a valid
    regular expression once the first [*] has become [.*]: [keys] of the
    fallback store rejects, and [clearCache] logs the error, deletes nothing
    and leaves the store as it was. *)
Theorem fallback_keys_rejects_double_star
        (host : string -> option (string -> bool)) (DB : Type)
        (pre rest : string) (w : W DB MockState)
        (Hpre : literal_text pre = true) :
  mock_keys host (pre ++ "**" ++ rest) (cache w)
  = (Rejected "SyntaxError: Invalid regular expression", cache w)
  /\ clearCache (mockClient host) (pre ++ "**" ++ rest) w
     = (tt, {| cache := cache w; db := db w;
               trace := (trace w ++ [EvKeys (pre ++ "**" ++ rest);
                                     EvLog "Error clearing cache:"])%list |}).
Proof.
  assert (E : mock_keys host (pre ++ "**" ++ rest) (cache w)
              = (Rejected "SyntaxError: Invalid regular expression", cache w)).
  { unfold mock_keys, RegExp. now rewrite parse_double_star. }
  split; [exact E|].
  unfold clearCache, clearCache_start. run_monad.
  cbn [mockClient client_keys]. rewrite E.
  unfold clearCache_resume. run_monad. now rewrite <- app_assoc.
Qed.

(** What [keys] selects is gone once it has been purged. *)
Lemma mock_keys_after_purge
      (host : string -> option (string -> bool)) (pattern : string)
      (st : MockState) :
  removed_keys
    (fst (mock_keys host pattern
            (purge (removed_keys (fst (mock_keys host pattern st))) st)))
  = [].
Proof.
  unfold mock_keys. destruct (RegExp host _) as [test|]; cbn [fst removed_keys];
    [|reflexivity].
  rewrite purge_state. cbn [mockStorage].
  rewrite (keys_filter
             (fun k => negb (existsb (String.eqb k)
                               (filter test (JSMap.keys (mockStorage st)))))).
  rewrite filter_twice. apply filter_none. intros k Hk.
  destruct (test k) eqn:Ht; [|now rewrite andb_false_r].
  rewrite andb_true_r. apply negb_false_iff. apply existsb_exists.
  exists k. split; [|apply String.eqb_refl]. now apply filter_In.
Qed.

(** X7.  On the fallback store [clearCache] is idempotent: run again at
    once with the same pattern, it enumerates, finds nothing, deletes
    nothing and leaves the store as the first run left it; and a run whose
    pattern selects no key changes nothing at all. *)
Theorem clearCache_twice_is_once
        (host : string -> option (string -> bool)) (DB : Type)
        (pattern : string) (w : W DB MockState) :
  let w1 := exec (clearCache (mockClient host) pattern) w in
  let w2 := exec (clearCache (mockClient host) pattern) w1 in
  cache w2 = cache w1
  /\ trace w2
     = (trace w1
        ++ EvKeys pattern
           :: (if is_rejected (fst (mock_keys host pattern (cache w)))
               then [EvLog "Error clearing cache:"] else []))%list
  /\ (fst (mock_keys host pattern (cache w)) = Ok [] ->
      cache w1 = cache w /\ trace w1 = (trace w ++ [EvKeys pattern])%list).
Proof.
  intros w1 w2.
  assert (E1 : w1 = {| cache := purge (invalidated host [pattern] (cache w))
                                      (cache w);
                       db := db w;
                       trace := (trace w ++ invalidation_events host [pattern]
                                                                (cache w))%list |}).
  { unfold w1, exec. now rewrite clearCache_fallback. }
  assert (E2 : w2 = {| cache := purge (invalidated host [pattern] (cache w1))
                                      (cache w1);
                       db := db w1;
                       trace := (trace w1 ++ invalidation_events host [pattern]
                                                                 (cache w1))%list |}).
  { unfold w2, exec. now rewrite clearCache_fallback. }
  assert (Hinv : invalidated host [pattern] (cache w)
                 = removed_keys (fst (mock_keys host pattern (cache w)))).
  { unfold invalidated. cbn [flat_map]. apply app_nil_r. }
  assert (Hnone : removed_keys (fst (mock_keys host pattern (cache w1))) = []).
  { rewrite E1. cbn [cache]. rewrite Hinv. apply mock_keys_after_purge. }
  assert (Hrej : is_rejected (fst (mock_keys host pattern (cache w1)))
                 = is_rejected (fst (mock_keys host pattern (cache w)))).
  { unfold mock_keys. now destruct (RegExp host _). }
  split; [|split].
  - rewrite E2. cbn [cache]. unfold invalidated. cbn [flat_map].
    rewrite Hnone. reflexivity.
  - rewrite E2. cbn [trace]. f_equal. unfold invalidation_events.
    cbn [map flat_map app]. rewrite app_nil_r, <- Hrej. f_equal.
    destruct (fst (mock_keys host pattern (cache w1))) as [[|k ks]|err];
      cbn [removed_keys] in Hnone; cbn [resume_events is_rejected]; easy.
  - intros Hk. rewrite E1. cbn [cache trace]. rewrite Hinv, Hk.
    cbn [removed_keys purge fold_left]. split; [reflexivity|].
    unfold invalidation_events. cbn [map flat_map app]. now rewrite Hk.
Qed.

Lemma existsb_eqb_In (k : string) (l : list string) :
  existsb (String.eqb k) l = true <-> In k l.
Proof.
  rewrite existsb_exists. split.
  - intros [x [Hx E]]. apply String.eqb_eq in E. now subst x.
  - intros H. exists k. split; [exact H | apply String.eqb_refl].
Qed.

(** A purge depends on which keys it is given, not on how often or in which
    order. *)
Lemma purge_same_keys (l1 l2 : list string) (st : MockState) :
  (forall k, In k l1 <-> In k l2) -> purge l1 st = purge l2 st.
Proof.
  intros H. rewrite !purge_state. f_equal. apply filter_ext. intros p.
  f_equal. pose proof (existsb_eqb_In (fst p) l1) as H1.
  pose proof (existsb_eqb_In (fst p) l2) as H2. specialize (H (fst p)).
  destruct (existsb (String.eqb (fst p)) l1),
           (existsb (String.eqb (fst p)) l2); try reflexivity.
  - assert (F : false = true) by (apply H2, H, H1; reflexivity). discriminate.
  - assert (F : false = true) by (apply H1, H, H2; reflexivity). discriminate.
Qed.

(** X8.  On the fallback store the second pattern of an update or a delete
    adds nothing: when the identifier is literal text without a line
    terminator, the key of the resource is among the keys the collection
    pattern selects, so a successful update or delete leaves the store
    exactly as [clearCache] of the collection pattern alone would. *)
Theorem resource_pattern_is_covered
        (JSON_stringify : json -> string) (DB : Type)
        (Student_save : json -> DB -> (string + json) * DB)
        (Student_findByIdAndUpdate :
           string -> json -> DB -> (string + option json) * DB)
        (Student_findByIdAndDelete :
           string -> DB -> (string + option json) * DB)
        (host : string -> option (string -> bool))
        (m : mutation) (req : request) (w : W DB MockState) (doc : json)
        (Hok : mutation_result Student_save Student_findByIdAndUpdate
                               Student_findByIdAndDelete m req (db w)
               = Some doc)
        (Hid : literal_text (params_id req) = true)
        (Hline : no_line_terminator (params_id req) = true) :
  (forall key,
      In key (removed_keys
                (fst (mock_keys host (resource_pattern (params_id req))
                                (cache w)))) ->
      In key (removed_keys
                (fst (mock_keys host collection_pattern (cache w)))))
  /\ cache (exec (run_mutation JSON_stringify Student_save
                               Student_findByIdAndUpdate
                               Student_findByIdAndDelete (mockClient host)
                               m req) w)
     = cache (exec (clearCache (mockClient host) collection_pattern) w).
Proof.
  assert (Hcov : forall key,
             In key (removed_keys
                       (fst (mock_keys host (resource_pattern (params_id req))
                                       (cache w)))) ->
             In key (removed_keys
                       (fst (mock_keys host collection_pattern (cache w))))).
  { intros key Hin.
    assert (Hlit : literal_text (resource_pattern (params_id req)) = true).
    { unfold resource_pattern, literal_text. rewrite all_chars_app.
      now rewrite andb_true_iff. }
    rewrite (mock_keys_parsed host _ _ (cache w) (parse_literal _ Hlit)) in Hin.
    cbn [fst removed_keys] in Hin. apply filter_In in Hin.
    destruct Hin as [Hkey Hm]. apply matches_literals in Hm. subst key.
    destruct (collection_keys host (cache w)) as [test [E Ht]].
    rewrite E. cbn [removed_keys]. apply filter_In. split; [exact Hkey|].
    apply Ht. exists ("/" ++ params_id req). split; [reflexivity|].
    unfold no_line_terminator in *. now rewrite all_chars_app, Hline. }
  split; [exact Hcov|]. unfold exec.
  rewrite (run_mutation_fallback JSON_stringify DB Student_save
             Student_findByIdAndUpdate Student_findByIdAndDelete host
             m req w doc Hok).
  rewrite clearCache_fallback. cbn [snd cache].
  destruct m; cbn [mutation_patterns]; [reflexivity | |];
    apply purge_same_keys; intros k; unfold invalidated; cbn [flat_map];
      rewrite !app_nil_r, in_app_iff; split; try tauto;
        intros [H|H]; [now apply Hcov | exact H | now apply Hcov | exact H].
Qed.

(** X9.  [clearCache] with any client: when [keys] is rejected, the error
    is logged and no [del] is issued; when it resolves to no key, nothing
    more happens; when it resolves to some keys, a [del] is issued for each
    of them in order, whether or not an earlier one is rejected, followed by
    at most one error line.  It sends nothing and leaves the document store
    alone. *)
Theorem clearCache_deletes_every_listed_key
        (DB S : Type) (redisClient : RedisClient S)
        (pattern : string) (w : W DB S) :
  let w' := exec (clearCache redisClient pattern) w in
  db w' = db w
  /\ match client_keys redisClient pattern (cache w) with
     | (Rejected _, c1) =>
         cache w' = c1
         /\ trace w' = (trace w ++ [EvKeys pattern;
                                    EvLog "Error clearing cache:"])%list
     | (Ok [], c1) =>
         cache w' = c1 /\ trace w' = (trace w ++ [EvKeys pattern])%list
     | (Ok keys, c1) =>
         exists tail,
           trace w'
           = (trace w
              ++ [EvKeys pattern;
                  EvLog ("Clearing cache keys matching: " ++ pattern)]
              ++ map EvDel keys ++ tail)%list
           /\ (tail = [] \/ tail = [EvLog "Error clearing cache:"])
     end.
Proof.
  intros w'. split; [apply clearCache_silent|].
  subst w'. unfold exec, clearCache, clearCache_start. run_monad.
  destruct (client_keys redisClient pattern (cache w)) as [[[|k ks]|err] c1];
    unfold clearCache_resume.
  - run_monad. now split.
  - run_monad.
    match goal with
    | |- context [del_each redisClient ?l ?w1] =>
        pose proof (del_each_run DB S redisClient l w1) as [_ H2];
        unfold exec in H2;
        destruct (del_each redisClient l w1) as [rs w2]
    end.
    cbn [fst snd db trace] in *.
    destruct (existsb is_rejected rs); run_monad; rewrite H2.
    + exists [EvLog "Error clearing cache:"]. split; [|now right].
      now rewrite <- !app_assoc.
    + exists []. split; [|now left].
      rewrite app_nil_r. now rewrite <- !app_assoc.
  - run_monad. split; [reflexivity|]. now rewrite <- app_assoc.
Qed.

(* ------------------------------------------------------------------ *)
(** ** Further properties of the routes and of the middleware *)

(** X10.  A mutation that does not succeed (the document is not found, or
    the document store throws) issues no cache command at all, with any
    client: the cache is left as it was, and the one event is the error
    response, with a status of 400 or more. *)
Theorem failed_mutation_leaves_cache_alone
        (JSON_stringify : json -> string) (DB : Type)
        (Student_save : json -> DB -> (string + json) * DB)
        (Student_findByIdAndUpdate :
           string -> json -> DB -> (string + option json) * DB)
        (Student_findByIdAndDelete :
           string -> DB -> (string + option json) * DB)
        (S : Type) (redisClient : RedisClient S)
        (m : mutation) (req : request) (w : W DB S)
        (Hfail : mutation_result Student_save Student_findByIdAndUpdate
                                 Student_findByIdAndDelete m req (db w)
                 = None) :
  run_mutation JSON_stringify Student_save Student_findByIdAndUpdate
               Student_findByIdAndDelete redisClient m req w
  = (tt, {| cache := cache w;
            db := mutation_db Student_save Student_findByIdAndUpdate
                              Student_findByIdAndDelete m req (db w);
            trace := (trace w
                      ++ [mutation_answer JSON_stringify Student_save
                            Student_findByIdAndUpdate Student_findByIdAndDelete
                            m req (db w)])%list |})
  /\ exists status payload,
      mutation_answer JSON_stringify Student_save Student_findByIdAndUpdate
                      Student_findByIdAndDelete m req (db w)
      = EvSend status payload
      /\ 400 <= status.
Proof.
  destruct m; cbn [run_mutation mutation_result mutation_db mutation_answer]
    in *.
  - unfold post_students. run_monad.
    destruct (Student_save (body req) (db w)) as [[msg|student] d'];
      cbn [fst snd] in *; [|easy].
    run_monad. split; [reflexivity|]. do 2 eexists. split; [reflexivity|lia].
  - unfold put_student. run_monad.
    destruct (Student_findByIdAndUpdate _ _ (db w)) as [[msg|[student|]] d'];
      cbn [fst snd] in *; try easy; run_monad;
        (split; [reflexivity|]); do 2 eexists; (split; [reflexivity|lia]).
  - unfold delete_student. run_monad.
    destruct (Student_findByIdAndDelete _ (db w)) as [[msg|[student|]] d'];
      cbn [fst snd] in *; try easy; run_monad;
        (split; [reflexivity|]); do 2 eexists; (split; [reflexivity|lia]).
Qed.

(** X11.  With any client the middleware issues a [set] only on a miss: if
    a request makes it issue one, the request is a GET, the lookup resolved
    to nothing usable, and the [set] is of the handler's serialized payload,
    under the key of the request, with the expiry of the route.  A request
    that is not a GET, a rejected lookup, a hit and a cached text that does
    not parse write nothing. *)
Theorem cacheData_sets_only_on_a_miss
        (JSON_stringify : json -> string) (JSON_parse : string -> option json)
        (DB S : Type) (redisClient : RedisClient S) (expireTime : Z)
        (req : request) (reply : DB -> Z * json) (w : W DB S) :
  exists events,
    trace (exec (cacheData JSON_stringify JSON_parse redisClient expireTime
                           req (responds reply)) w)
    = (trace w ++ events)%list
    /\ forall k v o,
        In (EvSet k v o) events ->
        method req = "GET"%string
        /\ (exists cachedData c1,
               client_get redisClient (cacheKey req) (cache w)
               = (Ok cachedData, c1)
               /\ truthy cachedData = false)
        /\ k = cacheKey req
        /\ v = JSON_stringify (snd (reply (db w)))
        /\ o = Some expireTime.
Proof.
  unfold exec. destruct (String.eqb (method req) "GET") eqn:Hm.
  - apply String.eqb_eq in Hm.
    destruct (client_get redisClient (cacheKey req) (cache w))
      as [[cachedData|err] c1] eqn:Hget.
    + destruct (truthy cachedData) eqn:Ht.
      * destruct cachedData as [[|x s]|]; try easy.
        destruct (JSON_parse (String x s)) as [data|] eqn:Hp.
        -- rewrite (cacheData_hit JSON_stringify JSON_parse DB S redisClient
                      expireTime req (responds reply) w (String x s) c1 data
                      Hm Hget ltac:(easy) Hp).
           eexists. split; [reflexivity|]. intros k v o H. cbn in H.
           decompose [or] H; easy.
        -- rewrite (cacheData_unparsable JSON_stringify JSON_parse DB S
                      redisClient expireTime req reply w (String x s) c1
                      Hm Hget ltac:(easy) Hp).
           eexists. split; [reflexivity|]. intros k v o H. cbn in H.
           decompose [or] H; easy.
      * rewrite (cacheData_miss JSON_stringify JSON_parse DB S redisClient
                   expireTime req reply w cachedData c1 Hm Hget Ht).
        eexists. split; [reflexivity|]. intros k v o H.
        apply in_app_or in H. destruct H as [H|H].
        -- cbn in H. decompose [or] H; try easy.
           match goal with E : EvSet _ _ _ = EvSet _ _ _ |- _ =>
             injection E as <- <- <- end.
           repeat split; [exact Hm | now exists cachedData, c1].
        -- destruct (is_rejected _); cbn in H; decompose [or] H; easy.
    + rewrite (cacheData_get_rejected JSON_stringify JSON_parse DB S
                 redisClient expireTime req reply w err c1 Hm Hget).
      eexists. split; [reflexivity|]. intros k v o H. cbn in H.
      decompose [or] H; easy.
  - rewrite (cacheData_passes_through JSON_stringify JSON_parse DB S
               redisClient expireTime req reply w Hm).
    eexists. split; [reflexivity|]. intros k v o H. cbn in H.
    decompose [or] H; easy.
Qed.

(** X12.  A cached text that [JSON.parse] rejects does not fail the
    request and is not repaired: with any client, when the lookup resolves
    to such a text, the hit and then the error are logged, the handler is
    invoked once with the original [res.json], its response is the one
    response, and no [set] or [del] is issued, so the client is left as the
    lookup left it. *)
Theorem unparsable_entry_goes_to_the_handler
        (JSON_stringify : json -> string) (JSON_parse : string -> option json)
        (DB S : Type) (redisClient : RedisClient S)
        (expireTime : Z) (req : request) (reply : DB -> Z * json)
        (w : W DB S) (s : string) (c1 : S)
        (Hm : method req = "GET"%string)
        (Hget : client_get redisClient (cacheKey req) (cache w)
                = (Ok (Some s), c1))
        (Hs : s <> EmptyString)
        (Hbad : JSON_parse s = None) :
  let status := fst (reply (db w)) in
  let payload := JSON_stringify (snd (reply (db w))) in
  let w' := exec (cacheData JSON_stringify JSON_parse redisClient expireTime
                            req (responds reply)) w in
  cache w' = c1
  /\ db w' = db w
  /\ trace w' = (trace w ++ [EvGet (cacheKey req);
                             EvLog ("Cache hit for " ++ cacheKey req);
                             EvLog "Cache middleware error:";
                             EvNext;
                             EvSend status payload])%list
  /\ responses (trace w') = (responses (trace w) ++ [EvSend status payload])%list
  /\ downstream_calls (trace w') = Datatypes.S (downstream_calls (trace w)).
Proof.
  intros status payload w'. subst w'. unfold exec.
  rewrite (cacheData_unparsable JSON_stringify JSON_parse DB S redisClient
             expireTime req reply w s c1 Hm Hget Hs Hbad).
  cbn [snd cache db trace]. fold status payload. repeat split.
  - rewrite responses_app. reflexivity.
  - rewrite downstream_calls_app. cbn. lia.
Qed.

Lemma purge_timers (keys : list string) (st : MockState) :
  timers (purge keys st) = timers st /\ clock (purge keys st) = clock st.
Proof. now rewrite purge_state. Qed.

(** X13.  The "not found" answer of [GET /api/students/:id] goes through
    the patched [res.json] like any other: on the fallback store it is
    cached, and the same request made again at once is a hit that sends the
    same body with status 200 instead of 404, without asking the document
    store. *)
Theorem missing_student_answer_is_cached
        (JSON_stringify : json -> string) (JSON_parse : string -> option json)
        (DB : Type) (Student_findById : string -> DB -> string + option json)
        (host : string -> option (string -> bool))
        (req : request) (w : W DB MockState) (back : json)
        (Hm : method req = "GET"%string)
        (Hmissing : Student_findById (params_id req) (db w) = inr None)
        (Habsent : JSMap.get (cacheKey req) (mockStorage (cache w)) = None)
        (Hne : JSON_stringify (message_body "Student not found")
               <> EmptyString)
        (Hparse : JSON_parse (JSON_stringify (message_body "Student not found"))
                  = Some back)
        (Hback : JSON_stringify back
                 = JSON_stringify (message_body "Student not found")) :
  let payload := JSON_stringify (message_body "Student not found") in
  let w1 := exec (get_student JSON_stringify JSON_parse Student_findById
                              (mockClient host) req) w in
  let w2 := exec (get_student JSON_stringify JSON_parse Student_findById
                              (mockClient host) req) w1 in
  responses (trace w1) = (responses (trace w) ++ [EvSend 404 payload])%list
  /\ JSMap.get (cacheKey req) (mockStorage (cache w1)) = Some payload
  /\ responses (trace w2) = (responses (trace w1) ++ [EvSend 200 payload])%list
  /\ downstream_calls (trace w2) = downstream_calls (trace w1).
Proof.
  intros payload w1 w2.
  assert (E1 : w1 = {| cache := snd (mock_set (cacheKey req) payload (Some 60)
                                              (cache w));
                       db := db w;
                       trace := (trace w
                                 ++ [EvGet (cacheKey req);
                                     EvLog ("Cache miss for " ++ cacheKey req);
                                     EvNext;
                                     EvSet (cacheKey req) payload (Some 60);
                                     EvSend 404 payload])%list |}).
  { unfold w1, exec, get_student.
    rewrite (cacheData_fallback_miss JSON_stringify JSON_parse DB host 60 req
               (student_reply Student_findById (params_id req)) w Hm);
      [|now rewrite Habsent].
    unfold student_reply. now rewrite Hmissing. }
  assert (Hg : JSMap.get (cacheKey req) (mockStorage (cache w1))
               = Some payload).
  { rewrite E1. cbn [cache]. rewrite mock_set_storage.
    apply jsmap_get_set_same. }
  assert (E2 : w2 = {| cache := cache w1; db := db w1;
                       trace := (trace w1
                                 ++ [EvGet (cacheKey req);
                                     EvLog ("Cache hit for " ++ cacheKey req);
                                     EvSend 200 (JSON_stringify back)])%list |}).
  { unfold w2, exec, get_student.
    now rewrite (cacheData_fallback_hit JSON_stringify JSON_parse DB host 60
                   req _ w1 payload back Hm Hg Hne Hparse). }
  split; [|split; [exact Hg|split]].
  - rewrite E1. cbn [trace]. rewrite responses_app. reflexivity.
  - rewrite E2. cbn [trace]. rewrite responses_app, Hback. reflexivity.
  - rewrite E2. cbn [trace]. rewrite downstream_calls_app. cbn. lia.
Qed.

(** X14.  Requests with different URLs (a different path or only a
    different query string) have entries of their own: on the fallback
    store, serving one GET leaves the entry of the other as it was, present
    or absent. *)
Theorem requests_do_not_share_entries
        (JSON_stringify : json -> string) (JSON_parse : string -> option json)
        (DB : Type) (host : string -> option (string -> bool))
        (expireTime : Z) (req other : request) (reply : DB -> Z * json)
        (w : W DB MockState)
        (Hm : method req = "GET"%string)
        (Hurl : originalUrl req <> originalUrl other) :
  cacheKey req <> cacheKey other
  /\ JSMap.get (cacheKey other)
               (mockStorage
                  (cache (exec (cacheData JSON_stringify JSON_parse
                                          (mockClient host) expireTime req
                                          (responds reply)) w)))
     = JSMap.get (cacheKey other) (mockStorage (cache w)).
Proof.
  assert (Hk : cacheKey req <> cacheKey other).
  { unfold cacheKey. intros E. cbn [append] in E. injection E as E.
    now apply Hurl. }
  split; [exact Hk|].
  apply cacheData_fallback_other_keys; [exact Hm|].
  intros E. now apply Hk.
Qed.

(** X15.  On the fallback store a response cached with a positive expiry is
    served for at most that long: once that many seconds have passed since
    the miss that stored it, the key is absent and the same request is a
    miss again.  A hit changes nothing in the store, timers included, so
    hits in between do not postpone the removal. *)
Theorem cached_response_expires
        (JSON_stringify : json -> string) (JSON_parse : string -> option json)
        (DB : Type) (host : string -> option (string -> bool))
        (expireTime : Z) (req : request) (reply : DB -> Z * json)
        (w : W DB MockState) (t' : Z)
        (Hm : method req = "GET"%string)
        (Hmiss : truthy (JSMap.get (cacheKey req) (mockStorage (cache w)))
                 = false)
        (Hpos : 0 < expireTime)
        (Hlate : clock (cache w) + expireTime * 1000 <= t') :
  let key := cacheKey req in
  let payload := JSON_stringify (snd (reply (db w))) in
  let w1 := exec (cacheData JSON_stringify JSON_parse (mockClient host)
                            expireTime req (responds reply)) w in
  JSMap.get key (mockStorage (cache w1)) = Some payload
  /\ JSMap.get key (mockStorage (cache (elapse t' w1))) = None
  /\ trace (exec (cacheData JSON_stringify JSON_parse (mockClient host)
                            expireTime req (responds reply)) (elapse t' w1))
     = (trace w1
        ++ [EvGet key; EvLog ("Cache miss for " ++ key); EvNext;
            EvSet key payload (Some expireTime);
            EvSend (fst (reply (db w))) payload])%list
  /\ (forall t1 s data (next : handler DB MockState),
         t1 < clock (cache w) + timer_delay (expireTime * 1000) ->
         JSMap.get key (mockStorage (cache (elapse t1 w1))) = Some s ->
         s <> EmptyString ->
         JSON_parse s = Some data ->
         let w2 := exec (cacheData JSON_stringify JSON_parse (mockClient host)
                                   expireTime req next) (elapse t1 w1) in
         cache w2 = cache (elapse t1 w1)
         /\ JSMap.get key (mockStorage (cache (elapse t' w2))) = None).
Proof.
  intros key payload w1.
  assert (E1 : w1 = {| cache := snd (mock_set key payload (Some expireTime)
                                              (cache w));
                       db := db w;
                       trace := (trace w
                                 ++ [EvGet key;
                                     EvLog ("Cache miss for " ++ key);
                                     EvNext;
                                     EvSet key payload (Some expireTime);
                                     EvSend (fst (reply (db w))) payload])%list |}).
  { unfold w1, exec.
    now rewrite (cacheData_fallback_miss JSON_stringify JSON_parse DB host
                   expireTime req reply w Hm Hmiss). }
  set (due := clock (cache w) + timer_delay (expireTime * 1000)).
  assert (Hdue : due <= t').
  { unfold due. pose proof (timer_delay_le (expireTime * 1000)). lia. }
  assert (Hin : In (due, key) (timers (cache w1))).
  { rewrite E1. cbn [cache]. rewrite mock_set_timers_EX by lia.
    apply in_or_app. right. now left. }
  assert (Hgone : JSMap.get key (mockStorage (cache (elapse t' w1))) = None).
  { unfold elapse. cbn [cache]. now apply (run_timers_expired t' due). }
  split; [|split; [exact Hgone|split]].
  - rewrite E1. cbn [cache]. rewrite mock_set_storage.
    apply jsmap_get_set_same.
  - unfold exec.
    rewrite (cacheData_fallback_miss JSON_stringify JSON_parse DB host
               expireTime req reply (elapse t' w1) Hm);
      [|fold key; now rewrite Hgone].
    cbn [snd trace elapse db]. rewrite E1. reflexivity.
  - intros t1 s data next Ht1 Hs Hne Hp w2.
    assert (E2 : cache w2 = cache (elapse t1 w1)).
    { unfold w2, exec.
      now rewrite (cacheData_fallback_hit JSON_stringify JSON_parse DB host
                     expireTime req next (elapse t1 w1) s data Hm Hs Hne Hp). }
    split; [exact E2|]. unfold elapse at 1. cbn [cache]. rewrite E2.
    unfold elapse. cbn [cache].
    apply (run_timers_expired t' due); [|exact Hdue].
    now apply run_timers_keeps_pending.
Qed.

(** X16.  An invalidation deletes entries but cancels no timer.  On the
    fallback store, when a response is cached, a mutation then clears it, and
    the same request caches a fresh response, the removal scheduled for the
    first entry still fires at its own due time: the fresh entry is gone by
    then, however long its own expiry is. *)
Theorem fresh_entry_expires_with_the_old_timer
        (JSON_stringify : json -> string) (JSON_parse : string -> option json)
        (DB : Type)
        (Student_save : json -> DB -> (string + json) * DB)
        (Student_findByIdAndUpdate :
           string -> json -> DB -> (string + option json) * DB)
        (Student_findByIdAndDelete :
           string -> DB -> (string + option json) * DB)
        (host : string -> option (string -> bool))
        (expireTime expireTime2 : Z) (req mreq : request) (m : mutation)
        (reply reply2 : DB -> Z * json) (w : W DB MockState)
        (rest : string) (doc : json) (t' : Z)
        (Hm : method req = "GET"%string)
        (Hurl : originalUrl req = "/api/students" ++ rest)
        (Hrest : no_line_terminator rest = true)
        (Hmiss : truthy (JSMap.get (cacheKey req) (mockStorage (cache w)))
                 = false)
        (Hpos : 0 < expireTime)
        (Hlate : clock (cache w) + expireTime * 1000 <= t') :
  let key := cacheKey req in
  let w1 := exec (cacheData JSON_stringify JSON_parse (mockClient host)
                            expireTime req (responds reply)) w in
  let w2 := exec (run_mutation JSON_stringify Student_save
                               Student_findByIdAndUpdate
                               Student_findByIdAndDelete (mockClient host)
                               m mreq) w1 in
  let w3 := exec (cacheData JSON_stringify JSON_parse (mockClient host)
                            expireTime2 req (responds reply2)) w2 in
  mutation_result Student_save Student_findByIdAndUpdate
                  Student_findByIdAndDelete m mreq (db w1) = Some doc ->
  timers (cache w2) = timers (cache w1)
  /\ JSMap.get key (mockStorage (cache w2)) = None
  /\ JSMap.get key (mockStorage (cache w3))
     = Some (JSON_stringify (snd (reply2 (db w2))))
  /\ JSMap.get key (mockStorage (run_timers t' (cache w3))) = None.
Proof.
  intros key w1 w2 w3 Hok.
  assert (E1 : cache w1 = snd (mock_set key (JSON_stringify (snd (reply (db w))))
                                        (Some expireTime) (cache w))).
  { unfold w1, exec.
    now rewrite (cacheData_fallback_miss JSON_stringify JSON_parse DB host
                   expireTime req reply w Hm Hmiss). }
  set (due := clock (cache w) + timer_delay (expireTime * 1000)).
  assert (Hdue : due <= t').
  { unfold due. pose proof (timer_delay_le (expireTime * 1000)). lia. }
  assert (Hin1 : In (due, key) (timers (cache w1))).
  { rewrite E1, mock_set_timers_EX by lia. apply in_or_app. right. now left. }
  assert (E2 : cache w2
               = purge (invalidated host (mutation_patterns m mreq) (cache w1))
                       (cache w1)).
  { unfold w2, exec.
    now rewrite (run_mutation_fallback JSON_stringify DB Student_save
                   Student_findByIdAndUpdate Student_findByIdAndDelete host
                   m mreq w1 doc Hok). }
  assert (Ht2 : timers (cache w2) = timers (cache w1)).
  { rewrite E2. apply purge_timers. }
  assert (Hg2 : JSMap.get key (mockStorage (cache w2)) = None).
  { rewrite E2. unfold key, cacheKey. rewrite Hurl.
    change ("students:" ++ "/api/students" ++ rest)
      with ("students:/api/students" ++ rest).
    now apply collection_purged. }
  assert (E3 : cache w3
               = snd (mock_set key (JSON_stringify (snd (reply2 (db w2))))
                               (Some expireTime2) (cache w2))).
  { unfold w3, exec.
    rewrite (cacheData_fallback_miss JSON_stringify JSON_parse DB host
               expireTime2 req reply2 w2 Hm); [reflexivity|].
    fold key. now rewrite Hg2. }
  split; [exact Ht2|]. split; [exact Hg2|]. split.
  - rewrite E3, mock_set_storage. apply jsmap_get_set_same.
  - apply (run_timers_expired t' due); [|exact Hdue].
    rewrite E3. apply mock_set_keeps_timers. now rewrite Ht2.
Qed.

(* ------------------------------------------------------------------ *)
(** ** The further properties at concrete inputs *)


Lemma fallback_set_without_expiry_stays_witness :
  (Some 0 = None \/ Some 0 = Some 0)
  /\ (forall d, ~ In (d, "k"%string) (timers mock_init))
  /\ JSMap.get "k" (mockStorage
                      (run_timers 1000000000
                         (snd (mock_set "k" "v" (Some 0) mock_init))))
     = Some "v"%string.
Proof.
  assert (H1 : Some 0 = None \/ Some 0 = Some 0) by now right.
  assert (H2 : forall d, ~ In (d, "k"%string) (timers mock_init))
    by (intros d H; exact H).
  split; [exact H1|]. split; [exact H2|].
  exact (proj1 (proj2 (fallback_set_without_expiry_stays
                         mock_init "k" "v" (Some 0) 1000000000 H1 H2))).
Defined.

Lemma fallback_other_keys_untouched_witness :
  "a"%string <> "b"%string
  /\ fst (mock_get "b" (snd (mock_set "a" "1" (Some 60)
                               (Demo.seeded ["b"%string]))))
     = Ok (Some "1"%string).
Proof.
  assert (H : "a"%string <> "b"%string) by discriminate.
  split; [exact H|].
  rewrite (proj1 (fallback_other_keys_untouched (Demo.seeded ["b"%string])
                    "a" "b" "1" (Some 60) H)).
  reflexivity.
Defined.

Lemma fallback_empty_value_is_stored_witness :
  literal_text "k" = true
  /\ fst (mock_get "k" (snd (mock_set "k" EmptyString None mock_init)))
     = Ok None
  /\ fst (mock_del "k" (snd (mock_set "k" EmptyString None mock_init)))
     = Ok 1.
Proof.
  split; [reflexivity|].
  destruct (fallback_empty_value_is_stored Demo.host mock_init "k" None
              eq_refl) as (H1 & H2 & _).
  split; [exact H1 | exact H2].
Defined.

Lemma fallback_keys_literal_pattern_is_exact_witness :
  let st := Demo.seeded ["students:/api/students/42"%string;
                         "students:/api/students/421"%string] in
  literal_text "students:/api/students/42" = true
  /\ fst (mock_keys Demo.host "students:/api/students/42" st)
     = Ok ["students:/api/students/42"%string].
Proof.
  intros st. split; [reflexivity|].
  rewrite (proj1 (fallback_keys_literal_pattern_is_exact
                    Demo.host st "students:/api/students/42" eq_refl)).
  reflexivity.
Defined.

Lemma fallback_keys_rejects_double_star_witness :
  literal_text "students:" = true
  /\ fst (mock_keys Demo.host "students:**" mock_init)
     = Rejected "SyntaxError: Invalid regular expression".
Proof.
  split; [reflexivity|].
  exact (f_equal fst
           (proj1 (fallback_keys_rejects_double_star Demo.host Demo.DB
                     "students:" EmptyString
                     (Demo.a_world mock_init Demo.one_student) eq_refl))).
Defined.

Lemma clearCache_twice_is_once_witness :
  let w := Demo.a_world (Demo.seeded ["other:/foo"%string]) Demo.one_student in
  let w1 := exec (clearCache (mockClient Demo.host) "students:/api/students*")
                 w in
  fst (mock_keys Demo.host "students:/api/students*" (cache w)) = Ok []
  /\ cache w1 = cache w
  /\ trace w1 = [EvKeys "students:/api/students*"].
Proof.
  intros w w1.
  assert (H : fst (mock_keys Demo.host "students:/api/students*" (cache w))
              = Ok []) by reflexivity.
  split; [exact H|].
  exact (proj2 (proj2 (clearCache_twice_is_once Demo.host Demo.DB
                         "students:/api/students*" w)) H).
Defined.

Lemma resource_pattern_is_covered_witness :
  let req := Demo.a_request "PUT" "/api/students/42" "42" in
  let w := Demo.a_world (Demo.seeded ["students:/api/students"%string;
                                      "students:/api/students/42"%string;
                                      "other:/foo"%string])
                        Demo.one_student in
  mutation_result Demo.save Demo.findByIdAndUpdate Demo.findByIdAndDelete
                  Update req (db w) = Some (JBool false)
  /\ literal_text (params_id req) = true
  /\ no_line_terminator (params_id req) = true
  /\ cache (exec (run_mutation Demo.stringify Demo.save
                               Demo.findByIdAndUpdate Demo.findByIdAndDelete
                               (mockClient Demo.host) Update req) w)
     = cache (exec (clearCache (mockClient Demo.host) collection_pattern) w).
Proof.
  intros req w.
  assert (Hok : mutation_result Demo.save Demo.findByIdAndUpdate
                                Demo.findByIdAndDelete Update req (db w)
                = Some (JBool false)) by reflexivity.
  split; [exact Hok|]. split; [reflexivity|]. split; [reflexivity|].
  exact (proj2 (resource_pattern_is_covered Demo.stringify Demo.DB Demo.save
                  Demo.findByIdAndUpdate Demo.findByIdAndDelete Demo.host
                  Update req w (JBool false) Hok eq_refl eq_refl)).
Defined.

Lemma failed_mutation_leaves_cache_alone_witness :
  let req := Demo.a_request "PUT" "/api/students/nobody" "nobody" in
  let w := Demo.a_world tt Demo.one_student in
  mutation_result Demo.save Demo.findByIdAndUpdate Demo.findByIdAndDelete
                  Update req (db w) = None
  /\ run_mutation Demo.stringify Demo.save Demo.findByIdAndUpdate
                  Demo.findByIdAndDelete Demo.brokenClient Update req w
     = (tt, {| cache := tt; db := Demo.one_student;
               trace := [EvSend 404 "{}"] |}).
Proof.
  intros req w.
  assert (Hfail : mutation_result Demo.save Demo.findByIdAndUpdate
                                  Demo.findByIdAndDelete Update req (db w)
                  = None) by reflexivity.
  split; [exact Hfail|].
  exact (proj1 (failed_mutation_leaves_cache_alone Demo.stringify Demo.DB
                  Demo.save Demo.findByIdAndUpdate Demo.findByIdAndDelete
                  unit Demo.brokenClient Update req w Hfail)).
Defined.

Lemma cacheData_sets_only_on_a_miss_witness :
  let req := Demo.a_request "GET" "/api/students" EmptyString in
  let reply := fun _ : Demo.DB => (200, JArr []) in
  let w := Demo.a_world tt Demo.one_student in
  In (EvSet "students:/api/students" "[]" (Some 60))
     (trace (exec (cacheData Demo.stringify Demo.parse Demo.blankClient 60 req
                             (responds reply)) w))
  /\ method req = "GET"%string
  /\ exists cachedData c1,
      client_get Demo.blankClient (cacheKey req) (cache w)
      = (Ok cachedData, c1)
      /\ truthy cachedData = false.
Proof.
  intros req reply w.
  assert (Hin : In (EvSet "students:/api/students" "[]" (Some 60))
                   (trace (exec (cacheData Demo.stringify Demo.parse
                                           Demo.blankClient 60 req
                                           (responds reply)) w))).
  { simpl. tauto. }
  split; [exact Hin|].
  destruct (cacheData_sets_only_on_a_miss Demo.stringify Demo.parse Demo.DB
              unit Demo.blankClient 60 req reply w) as [events [E H]].
  rewrite E in Hin. cbn [trace w Demo.a_world app] in Hin.
  destruct (H _ _ _ Hin) as (H1 & H2 & _). now split.
Defined.

Lemma unparsable_entry_goes_to_the_handler_witness :
  let req := Demo.a_request "GET" "/api/students" EmptyString in
  let reply := fun _ : Demo.DB => (200, JArr []) in
  let w := Demo.a_world tt Demo.one_student in
  method req = "GET"%string
  /\ client_get Demo.garbledClient (cacheKey req) (cache w)
     = (Ok (Some "oops"%string), tt)
  /\ "oops"%string <> EmptyString
  /\ Demo.parse "oops" = None
  /\ trace (exec (cacheData Demo.stringify Demo.parse Demo.garbledClient 60
                            req (responds reply)) w)
     = [EvGet "students:/api/students";
        EvLog "Cache hit for students:/api/students";
        EvLog "Cache middleware error:";
        EvNext;
        EvSend 200 "[]"].
Proof.
  intros req reply w.
  assert (Hne : "oops"%string <> EmptyString) by discriminate.
  split; [reflexivity|]. split; [reflexivity|]. split; [exact Hne|].
  split; [reflexivity|].
  exact (proj1 (proj2 (proj2 (unparsable_entry_goes_to_the_handler
                                Demo.stringify Demo.parse Demo.DB unit
                                Demo.garbledClient 60 req reply w "oops" tt
                                eq_refl eq_refl Hne eq_refl)))).
Defined.

Lemma missing_student_answer_is_cached_witness :
  let req := Demo.a_request "GET" "/api/students/nobody" "nobody" in
  let w := Demo.a_world mock_init Demo.one_student in
  let w1 := exec (get_student Demo.stringify Demo.parse Demo.findById
                              (mockClient Demo.host) req) w in
  let w2 := exec (get_student Demo.stringify Demo.parse Demo.findById
                              (mockClient Demo.host) req) w1 in
  method req = "GET"%string
  /\ Demo.findById (params_id req) (db w) = inr None
  /\ JSMap.get (cacheKey req) (mockStorage (cache w)) = None
  /\ responses (trace w2) = [EvSend 404 "{}"; EvSend 200 "{}"].
Proof.
  intros req w w1 w2.
  split; [reflexivity|]. split; [reflexivity|]. split; [reflexivity|].
  destruct (missing_student_answer_is_cached Demo.stringify Demo.parse
              Demo.DB Demo.findById Demo.host req w (JObj [])
              eq_refl eq_refl eq_refl ltac:(discriminate) eq_refl eq_refl)
    as (H1 & _ & H2 & _).
  fold w1 in H1, H2. fold w2 in H2. rewrite H2, H1. reflexivity.
Defined.

Lemma requests_do_not_share_entries_witness :
  let req := Demo.a_request "GET" "/api/students?page=1" EmptyString in
  let other := Demo.a_request "GET" "/api/students?page=2" EmptyString in
  method req = "GET"%string
  /\ originalUrl req <> originalUrl other
  /\ cacheKey req <> cacheKey other.
Proof.
  intros req other.
  assert (Hurl : originalUrl req <> originalUrl other) by discriminate.
  split; [reflexivity|]. split; [exact Hurl|].
  exact (proj1 (requests_do_not_share_entries Demo.stringify Demo.parse
                  Demo.DB Demo.host 60 req other (fun _ => (200, JArr []))
                  (Demo.a_world mock_init Demo.one_student) eq_refl Hurl)).
Defined.

Lemma cached_response_expires_witness :
  let req := Demo.a_request "GET" "/api/students" EmptyString in
  let reply := fun _ : Demo.DB => (200, JArr []) in
  let w := Demo.a_world mock_init Demo.one_student in
  let w1 := exec (cacheData Demo.stringify Demo.parse (mockClient Demo.host)
                            60 req (responds reply)) w in
  method req = "GET"%string
  /\ truthy (JSMap.get (cacheKey req) (mockStorage (cache w))) = false
  /\ 0 < 60
  /\ clock (cache w) + 60 * 1000 <= 60000
  /\ JSMap.get (cacheKey req) (mockStorage (cache w1)) = Some "[]"%string
  /\ JSMap.get (cacheKey req) (mockStorage (cache (elapse 60000 w1))) = None.
Proof.
  intros req reply w w1.
  assert (Hpos : 0 < 60) by lia.
  assert (Hlate : clock (cache w) + 60 * 1000 <= 60000) by (simpl; lia).
  split; [reflexivity|]. split; [reflexivity|]. split; [exact Hpos|].
  split; [exact Hlate|].
  destruct (cached_response_expires Demo.stringify Demo.parse Demo.DB
              Demo.host 60 req reply w 60000 eq_refl eq_refl Hpos Hlate)
    as (H1 & H2 & _).
  split; [exact H1 | exact H2].
Defined.

Lemma fresh_entry_expires_with_the_old_timer_witness :
  let req := Demo.a_request "GET" "/api/students/42" "42" in
  let mreq := Demo.a_request "PUT" "/api/students/42" "42" in
  let reply := fun _ : Demo.DB => (200, JArr []) in
  let w := Demo.a_world mock_init Demo.one_student in
  let w1 := exec (cacheData Demo.stringify Demo.parse (mockClient Demo.host)
                            1 req (responds reply)) w in
  let w2 := exec (run_mutation Demo.stringify Demo.save Demo.findByIdAndUpdate
                               Demo.findByIdAndDelete (mockClient Demo.host)
                               Update mreq) w1 in
  let w3 := exec (cacheData Demo.stringify Demo.parse (mockClient Demo.host)
                            3600 req (responds reply)) w2 in
  method req = "GET"%string
  /\ originalUrl req = "/api/students" ++ "/42"
  /\ no_line_terminator "/42" = true
  /\ truthy (JSMap.get (cacheKey req) (mockStorage (cache w))) = false
  /\ 0 < 1
  /\ clock (cache w) + 1 * 1000 <= 1000
  /\ mutation_result Demo.save Demo.findByIdAndUpdate Demo.findByIdAndDelete
                     Update mreq (db w1) = Some (JBool false)
  /\ JSMap.get (cacheKey req) (mockStorage (cache w3)) = Some "[]"%string
  /\ JSMap.get (cacheKey req) (mockStorage (run_timers 1000 (cache w3)))
     = None.
Proof.
  intros req mreq reply w w1 w2 w3.
  assert (Hpos : 0 < 1) by lia.
  assert (Hlate : clock (cache w) + 1 * 1000 <= 1000) by (simpl; lia).
  assert (Hok : mutation_result Demo.save Demo.findByIdAndUpdate
                                Demo.findByIdAndDelete Update mreq (db w1)
                = Some (JBool false)) by reflexivity.
  split; [reflexivity|]. split; [reflexivity|]. split; [reflexivity|].
  split; [reflexivity|]. split; [exact Hpos|]. split; [exact Hlate|].
  split; [exact Hok|].
  destruct (fresh_entry_expires_with_the_old_timer Demo.stringify Demo.parse
              Demo.DB Demo.save Demo.findByIdAndUpdate Demo.findByIdAndDelete
              Demo.host 1 3600 req mreq Update reply reply w "/42"
              (JBool false) 1000 eq_refl eq_refl eq_refl eq_refl Hpos Hlate
              Hok)
    as (_ & _ & H3 & H4).
  split; [exact H3 | exact H4].
Defined.
